(** * PgOSM Flex: the data-acquisition and orchestration logic of
      [docker/pgosm_flex.py], embedded in Rocq.

    The Python functions are translated one by one and keep their names.
    Paths, dates, URLs and file contents are [string]s; an optional
    argument ([None] in Python) is an [option]; the file system is a finite
    map from paths to file contents; exceptions are values of [exn] carried
    by an error-and-state monad over the [world] the script acts on.

    Calls to [logging] and [print] do not influence control flow and are
    left out of the embedding. *)

From Stdlib Require Import Ascii String.
From stdpp Require Import base option list gmap strings.
From Equations Require Import Equations.

Local Open Scope string_scope.

(** ** Python string primitives used by the script *)

Module Py.

(** [str.replace(old, new)] for a non-empty [old]: occurrences are replaced
    from left to right and do not overlap.  [skip] counts the characters of
    a matched occurrence that are still to be dropped. *)
Fixpoint replace_aux (old new : string) (skip : nat) (s : string) : string :=
  match s with
  | EmptyString => EmptyString
  | String c s' =>
      match skip with
      | S k => replace_aux old new k s'
      | O =>
          if String.prefix old (String c s')
          then new +:+ replace_aux old new (String.length old - 1) s'
          else String c (replace_aux old new 0 s')
      end
  end.

Definition replace (old new s : string) : string := replace_aux old new 0 s.

(** [str.startswith] and [str.endswith]. *)
Definition startswith (s pre : string) : bool := String.prefix pre s.

Definition endswith (s suf : string) : bool :=
  String.prefix (String.rev suf) (String.rev s).

(** Truth value of a [str]: only the empty string is falsy. *)
Definition truthy (s : string) : bool :=
  match s with EmptyString => false | String _ _ => true end.

(** [posixpath.join(a, b)]. *)
Definition path_join (a b : string) : string :=
  if startswith b "/" then b
  else if negb (truthy a) || endswith a "/" then a +:+ b
  else a +:+ "/" +:+ b.

(** The character-wise reading of [replace('/', '-')]. *)
Fixpoint map_chars (f : ascii -> ascii) (s : string) : string :=
  match s with
  | EmptyString => EmptyString
  | String c s' => String (f c) (map_chars f s')
  end.

Definition slash_to_hyphen (c : ascii) : ascii :=
  if Ascii.eqb c "/" then "-"%char else c.

Fixpoint has_char (a : ascii) (s : string) : bool :=
  match s with
  | EmptyString => false
  | String c s' => Ascii.eqb c a || has_char a s'
  end.

(** ASCII whitespace as [str.strip] and [str.split] see it. *)
Definition is_space (c : ascii) : bool :=
  let n := nat_of_ascii c in
  ((9 <=? n) && (n <=? 13) || (28 <=? n) && (n <=? 32))%nat.

Fixpoint lstrip (s : string) : string :=
  match s with
  | EmptyString => EmptyString
  | String c s' => if is_space c then lstrip s' else s
  end.

Definition rstrip (s : string) : string := String.rev (lstrip (String.rev s)).

Definition strip (s : string) : string := rstrip (lstrip s).

(** [str.lower] on ASCII letters. *)
Definition lower_char (c : ascii) : ascii :=
  let n := nat_of_ascii c in
  if ((65 <=? n) && (n <=? 90))%nat then ascii_of_nat (n + 32) else c.

Definition lower (s : string) : string := map_chars lower_char s.

(** [str.split()] without arguments: the maximal runs of non-whitespace. *)
Fixpoint split_go (cur : option string) (s : string) : list string :=
  match s with
  | EmptyString => option_list (String.rev <$> cur)
  | String c s' =>
      if is_space c
      then option_list (String.rev <$> cur) ++ split_go None s'
      else split_go (Some (String c (default EmptyString cur))) s'
  end.

Definition split (s : string) : list string := split_go None s.

(** The lines of a text file: [str.split('\n')] without a trailing empty
    piece. *)
Fixpoint lines_go (cur : string) (s : string) : list string :=
  match s with
  | EmptyString =>
      match cur with EmptyString => [] | _ => [String.rev cur] end
  | String c s' =>
      if Ascii.eqb c "010" then String.rev cur :: lines_go EmptyString s'
      else lines_go (String c cur) s'
  end.

Definition lines (s : string) : list string := lines_go EmptyString s.

(** One more than the index of the last occurrence of [c] in [s], or [0]
    when there is none ([str.rfind] shifted by one). *)
Fixpoint rfind1 (c : ascii) (s : string) : nat :=
  match s with
  | EmptyString => 0
  | String a s' =>
      match rfind1 c s' with
      | O => if Ascii.eqb a c then 1 else 0
      | S k => S (S k)
      end
  end.

(** One more than the index of the first character of [s] satisfying [p],
    or [0]. *)
Fixpoint find1 (p : ascii -> bool) (s : string) : nat :=
  match s with
  | EmptyString => 0
  | String a s' =>
      if p a then 1
      else match find1 p s' with O => 0 | S k => S (S k) end
  end.

Fixpoint all_chars (p : ascii -> bool) (s : string) : bool :=
  match s with
  | EmptyString => true
  | String a s' => p a && all_chars p s'
  end.

(** [posixpath.splitext(p)[0]]: the extension starts at the last dot of the
    last path component, unless that component has only leading dots before
    it. *)
Definition splitext_root (p : string) : string :=
  let sep1 := rfind1 "/" p in
  let dot1 := rfind1 "." p in
  if (sep1 <? dot1)%nat
     && negb (all_chars (fun a => Ascii.eqb a ".")
                (String.substring sep1 (dot1 - 1 - sep1) p))
  then String.substring 0 (dot1 - 1) p
  else p.

(** [str(x)] for an optional string. *)
Definition str (x : option string) : string := default "None" x.

End Py.

(** ** Exceptions and results *)

(** Calls into the [db] module, whose source is a separate file. *)
Inductive db_op : Type :=
  | PreparePgosmDb (data_only : bool)
  | PgosmAfterImport
  | PgosmNestedAdminPolygons
  | RenameSchema (schema_name : string)
  | RunPgDump (export_filename out_path : string) (data_only : bool)
      (schema_name : string).

Inductive exn : Type :=
  | AttributeError
  | ValueError (msg : string)
  | FileNotFoundError (msg : string)
  | SameFileError
  | CalledProcessError (cmd : list string)
  | ParsingError
  | DatabaseError (op : db_op)
  | SystemExit (msg : string).

Inductive result (A : Type) : Type :=
  | Ok (a : A)
  | Raise (e : exn).
Arguments Ok {A} a.
Arguments Raise {A} e.

(** ** Artifact names *)

Definition get_region_filename (region : string) (subregion : option string)
  : string :=
  match subregion with
  | None => region +:+ "-latest.osm.pbf"
  | Some sub => sub +:+ "-latest.osm.pbf"
  end.

(** Both [replace] calls come before the test on [subregion]; calling
    [.replace] on [None] raises [AttributeError]. *)
Definition get_export_filename (region : string) (subregion : option string)
    (layerset pgosm_date : string) : result string :=
  let region := Py.replace "/" "-" region in
  match subregion with
  | None => Raise AttributeError
  | Some sub =>
      let subregion := Some (Py.replace "/" "-" sub) in
      match subregion with
      | None =>
          Ok ("pgosm-flex-" +:+ region +:+ "-" +:+ layerset +:+ "-"
              +:+ pgosm_date +:+ ".sql")
      | Some subregion =>
          Ok ("pgosm-flex-" +:+ region +:+ "-" +:+ subregion +:+ "-"
              +:+ layerset +:+ "-" +:+ pgosm_date +:+ ".sql")
      end
  end.

Definition base_url : string := "https://download.geofabrik.de".

Definition get_pbf_url (region : string) (subregion : option string) : string :=
  match subregion with
  | None => base_url +:+ "/" +:+ region +:+ "-latest.osm.pbf"
  | Some sub => base_url +:+ "/" +:+ region +:+ "/" +:+ sub +:+ "-latest.osm.pbf"
  end.

(** [region.replace('/', '-')] as used by [get_log_path]. *)
Definition get_log_filename (region : string) (subregion : option string)
  : string :=
  let region_clean := Py.replace "/" "-" region in
  match subregion with
  | None => region_clean +:+ ".log"
  | Some sub => region_clean +:+ "-" +:+ sub +:+ ".log"
  end.

(** ** The world the script acts on *)

(** The four working directories returned by [get_paths]. *)
Record paths : Type := {
  base_path : string;
  db_path : string;
  out_path : string;
  flex_path : string
}.

(** What the script does to the outside, in the order it does it.  An
    external command carries the exit status it ended with ([true] for 0). *)
Inductive event : Type :=
  | EvSleep (secs : nat)
  | EvPgIsReady (ready : bool)
  | EvWget (url out : string) (ok : bool)
  | EvMd5sum (md5_file cwd : string) (ok : bool)
  | EvOsm2pgsql (argv : list string) (cwd : string) (ok : bool)
  | EvDb (op : db_op) (ok : bool).

(** [fs] holds the regular data files (path to content): the payloads and
    checksums the program downloads, copies and removes, the local input
    files and the layerset files it reads.  Directories are not part of it,
    and neither are the log file opened by [setup_logger] nor the export
    written by [pg_dump].  [environ] is [os.environ], [trace] lists the
    events so far, the most recent first, and [pg_calls] counts the
    invocations of [db.pg_isready]. *)
Record world : Type := {
  fs : gmap string string;
  environ : gmap string string;
  trace : list event;
  pg_calls : nat
}.

Definition set_fs (f : gmap string string) (w : world) : world :=
  {| fs := f; environ := environ w; trace := trace w; pg_calls := pg_calls w |}.

Definition set_environ (k v : string) (w : world) : world :=
  {| fs := fs w; environ := <[k := v]> (environ w); trace := trace w;
     pg_calls := pg_calls w |}.

Definition emit (e : event) (w : world) : world :=
  {| fs := fs w; environ := environ w; trace := e :: trace w;
     pg_calls := pg_calls w |}.

Definition initial_world (files env : gmap string string) : world :=
  {| fs := files; environ := env; trace := []; pg_calls := 0 |}.

(** Whatever lies outside the script: the clock, the programs it spawns and
    the modules [db] and [osm2pgsql_recommendation]. *)
Record externals : Type := {
  ext_today : string;
  ext_wget : string -> string -> gmap string string -> bool * gmap string string;
  ext_md5sum : string -> string -> gmap string string -> bool;
  ext_pg_isready : option string -> nat -> bool;
  ext_recommendation : nat -> string -> string -> option string -> result string;
  ext_osm2pgsql : list string -> string -> bool;
  ext_db : db_op -> bool;
  ext_connection_string : string
}.

(** ** The error-and-state monad *)

Definition M (A : Type) : Type := world -> result A * world.

Definition ret {A} (a : A) : M A := fun w => (Ok a, w).

Definition raise {A} (e : exn) : M A := fun w => (Raise e, w).

Definition bind {A B} (m : M A) (k : A -> M B) : M B :=
  fun w =>
    match m w with
    | (Ok a, w') => k a w'
    | (Raise e, w') => (Raise e, w')
    end.

Definition lift {A} (r : result A) : M A := fun w => (r, w).

Definition modify (f : world -> world) : M unit := fun w => (Ok tt, f w).

Declare Scope pgosm_scope.
Delimit Scope pgosm_scope with pgosm.
Notation "'let*' x ':=' m 'in' k" := (bind m (fun x => k))
  (at level 10, x name, m at level 100, k at level 200) : pgosm_scope.
Notation "m ';;' k" := (bind m (fun _ => k))
  (at level 100, k at level 200, right associativity) : pgosm_scope.
Local Open Scope pgosm_scope.

(** ** File-system primitives *)

Definition os_path_exists (p : string) : M bool :=
  fun w => (Ok (bool_decide (is_Some (fs w !! p))), w).

(** [shutil.copy2(src, dst)] between regular files, into a directory that
    exists: a missing source raises [FileNotFoundError], copying a file onto
    itself raises [SameFileError], otherwise the destination is created or
    overwritten.  A destination whose directory is missing, where the call
    raises [FileNotFoundError] as well, is outside the model. *)
Definition shutil_copy2 (src dst : string) : M unit :=
  fun w =>
    match fs w !! src with
    | None => (Raise (FileNotFoundError src), w)
    | Some content =>
        if bool_decide (src = dst) then (Raise SameFileError, w)
        else (Ok tt, set_fs (<[dst := content]> (fs w)) w)
    end.

(** [os.remove(p)]. *)
Definition os_remove (p : string) : M unit :=
  fun w =>
    match fs w !! p with
    | None => (Raise (FileNotFoundError p), w)
    | Some _ => (Ok tt, set_fs (delete p (fs w)) w)
    end.

(** ** Reading an INI file

    A model of the standard library's [configparser.ConfigParser] with its
    default settings, for files made of blank lines, comment lines
    ([#] or [;]), section headers [[name]] and options [key = value] or
    [key: value], none of them indented.  Option names are lower-cased and
    values are stripped.  Indented lines (continuation lines) and value
    interpolation ([%]) are outside the modelled subset; every error of the
    parser is rendered as [ParsingError]. *)

Module ConfigParser.

Record config : Type := {
  defaults : gmap string string;
  sections : gmap string (gmap string string)
}.

Definition empty : config := {| defaults := ∅; sections := ∅ |}.

(** Where the next option goes: nowhere before the first header, else the
    [DEFAULT] section or a named one. *)
Inductive cursor : Type :=
  | NoSection
  | InDefault
  | InSection (name : string).

Definition is_comment (stripped : string) : bool :=
  Py.startswith stripped "#" || Py.startswith stripped ";".

(** [SECTCRE], [\[(?P<header>.+)\]], matched at the start of the line. *)
Definition header_name (stripped : string) : option string :=
  if Py.startswith stripped "[" && (2 <? Py.rfind1 "]" stripped)%nat
  then Some (String.substring 1 (Py.rfind1 "]" stripped - 2) stripped)
  else None.

Definition is_delimiter (c : ascii) : bool :=
  Ascii.eqb c "=" || Ascii.eqb c ":".

(** [OPTCRE]: the option name ends before the first [=] or [:]. *)
Definition option_of_line (stripped : string) : option (string * string) :=
  match Py.find1 is_delimiter stripped with
  | O => None
  | S k =>
      let optname := Py.lower (Py.rstrip (String.substring 0 k stripped)) in
      let value :=
        Py.strip (String.substring (S k) (String.length stripped - S k) stripped) in
      if Py.truthy optname then Some (optname, value) else None
  end.

Definition add_option (cur : cursor) (optname value : string) (c : config)
  : result config :=
  match cur with
  | NoSection => Raise ParsingError
  | InDefault =>
      match defaults c !! optname with
      | Some _ => Raise ParsingError
      | None =>
          Ok {| defaults := <[optname := value]> (defaults c);
                sections := sections c |}
      end
  | InSection name =>
      let sec := default ∅ (sections c !! name) in
      match sec !! optname with
      | Some _ => Raise ParsingError
      | None =>
          Ok {| defaults := defaults c;
                sections := <[name := <[optname := value]> sec]> (sections c) |}
      end
  end.

Definition read_line (line : string) (st : cursor * config)
  : result (cursor * config) :=
  let '(cur, c) := st in
  let stripped := Py.strip line in
  if is_comment stripped || negb (Py.truthy stripped) then Ok st
  else if negb (bool_decide (Py.lstrip line = line)) then Raise ParsingError
  else
    match header_name stripped with
    | Some name =>
        if bool_decide (name = "DEFAULT") then Ok (InDefault, c)
        else
          match sections c !! name with
          | Some _ => Raise ParsingError
          | None =>
              Ok (InSection name,
                  {| defaults := defaults c;
                     sections := <[name := ∅]> (sections c) |})
          end
    | None =>
        match cur with
        | NoSection => Raise ParsingError
        | _ =>
            match option_of_line stripped with
            | None => Raise ParsingError
            | Some (optname, value) =>
                match add_option cur optname value c with
                | Ok c' => Ok (cur, c')
                | Raise e => Raise e
                end
            end
        end
    end.

Fixpoint read_lines (ls : list string) (st : cursor * config)
  : result (cursor * config) :=
  match ls with
  | [] => Ok st
  | line :: rest =>
      match read_line line st with
      | Ok st' => read_lines rest st'
      | Raise e => Raise e
      end
  end.

Definition read_string (content : string) : result config :=
  match read_lines (Py.lines content) (NoSection, empty) with
  | Ok (_, c) => Ok c
  | Raise e => Raise e
  end.

(** [config.read(filename)]: a file that cannot be opened is skipped
    silently and leaves the configuration empty. *)
Definition read (files : gmap string string) (filename : string)
  : result config :=
  match files !! filename with
  | None => Ok empty
  | Some content => read_string content
  end.

(** [config[section][key]]; [None] stands for [KeyError].  A key missing
    from the section is looked up in [DEFAULT]. *)
Definition getitem (c : config) (section key : string) : option string :=
  match sections c !! section with
  | None => None
  | Some sec =>
      match sec !! key with
      | Some v => Some v
      | None => defaults c !! key
      end
  end.

End ConfigParser.

Section Pipeline.

Context (ext : externals).

Definition get_today : M string := ret (ext_today ext).

(** [subprocess.run(['/usr/bin/wget', url, '-O', out, '--quiet'], check=True)]. *)
Definition run_wget (url out : string) : M unit :=
  fun w =>
    let '(ok, files) := ext_wget ext url out (fs w) in
    let w' := emit (EvWget url out ok) (set_fs files w) in
    if ok then (Ok tt, w')
    else (Raise (CalledProcessError ["/usr/bin/wget"; url; "-O"; out; "--quiet"]), w').

(** ** Data acquisition *)

(** [Path(out_path).mkdir] is left out: [fs] holds regular files only. *)
Definition get_paths (base_path : string) : paths :=
  {| base_path := base_path;
     db_path := Py.path_join base_path "db";
     out_path := Py.path_join base_path "output";
     flex_path := Py.path_join base_path "flex-config" |}.

Definition pbf_download_needed (pbf_file_with_date md5_file_with_date
    pgosm_date : string) : M bool :=
  let* pbf_exists := os_path_exists pbf_file_with_date in
  if pbf_exists then
    let* md5_exists := os_path_exists md5_file_with_date in
    if md5_exists then ret false
    else
      let* today := get_today in
      if bool_decide (pgosm_date = today) then ret true
      else raise (FileNotFoundError
             ("Missing MD5 file for " +:+ pgosm_date +:+ ". Cannot validate."))
  else
    let* today := get_today in
    if negb (bool_decide (pgosm_date = today)) then
      raise (FileNotFoundError
             ("Missing PBF file for " +:+ pgosm_date +:+ ". Cannot proceed."))
    else ret true.

Definition download_data (region : string) (subregion : option string)
    (pbf_file md5_file : string) : M unit :=
  let pbf_url := get_pbf_url region subregion in
  run_wget pbf_url pbf_file ;;
  run_wget (pbf_url +:+ ".md5") md5_file.

Definition verify_checksum (md5_file : string) (p : paths) : M unit :=
  fun w =>
    let ok := ext_md5sum ext md5_file (out_path p) (fs w) in
    let w' := emit (EvMd5sum md5_file (out_path p) ok) w in
    if ok then (Ok tt, w')
    else (Raise (CalledProcessError ["md5sum"; "-c"; md5_file]), w').

Definition archive_data (pbf_file md5_file pbf_file_with_date
    md5_file_with_date : string) : M unit :=
  (let* pbf_archived := os_path_exists pbf_file_with_date in
   if pbf_archived then ret tt
   else shutil_copy2 pbf_file pbf_file_with_date) ;;
  let* md5_archived := os_path_exists md5_file_with_date in
  if md5_archived then ret tt
  else shutil_copy2 md5_file md5_file_with_date.

Definition unarchive_data (pbf_file md5_file pbf_file_with_date
    md5_file_with_date : string) : M unit :=
  shutil_copy2 pbf_file_with_date pbf_file ;;
  shutil_copy2 md5_file_with_date md5_file.

Definition prepare_data (region : string) (subregion : option string)
    (pgosm_date : string) (p : paths) : M string :=
  let pbf_filename := get_region_filename region subregion in
  let pbf_file := Py.path_join (out_path p) pbf_filename in
  let pbf_file_with_date := Py.replace "latest" pgosm_date pbf_file in
  let md5_file := pbf_file +:+ ".md5" in
  let md5_file_with_date := pbf_file_with_date +:+ ".md5" in
  let* download_needed :=
    pbf_download_needed pbf_file_with_date md5_file_with_date pgosm_date in
  (if download_needed then
     download_data region subregion pbf_file md5_file ;;
     archive_data pbf_file md5_file pbf_file_with_date md5_file_with_date
   else
     unarchive_data pbf_file md5_file pbf_file_with_date md5_file_with_date) ;;
  verify_checksum md5_file p ;;
  ret pbf_file.

Definition remove_latest_files (region : string) (subregion : option string)
    (p : paths) : M unit :=
  let pbf_filename := get_region_filename region subregion in
  let pbf_file := Py.path_join (out_path p) pbf_filename in
  let md5_file := pbf_file +:+ ".md5" in
  os_remove pbf_file ;;
  os_remove md5_file.

(** ** Nested-polygon decision *)

(** [place] is the string read from the file; [if place:] tests whether it
    is non-empty. *)
Definition check_layerset_places (layerset_path : option string)
    (layerset : string) (p : paths) : M bool :=
  fun w =>
    let layerset_path :=
      match layerset_path with
      | None => Py.path_join (flex_path p) "layerset"
      | Some dir => dir
      end in
    let ini_file := Py.path_join layerset_path (layerset +:+ ".ini") in
    match ConfigParser.read (fs w) ini_file with
    | Raise e => (Raise e, w)
    | Ok config =>
        match ConfigParser.getitem config "layerset" "place" with
        | None => (Ok true, w)
        | Some place =>
            if Py.truthy place then (Ok false, w) else (Ok true, w)
        end
    end.

(** ** Readiness poller *)

Definition time_sleep (secs : nat) : M unit := modify (emit (EvSleep secs)).

(** [db.pg_isready]: the answer to the call number [pg_calls] comes from
    outside. *)
Definition pg_isready (conn_str : option string) : M bool :=
  fun w =>
    let ready := ext_pg_isready ext conn_str (pg_calls w) in
    (Ok ready,
     {| fs := fs w; environ := environ w;
        trace := EvPgIsReady ready :: trace w;
        pg_calls := S (pg_calls w) |}).

Definition sys_exit {A} (err : string) : M A := raise (SystemExit err).

Definition required_checks : nat := 2.
Definition max_loops : nat := 30.

(** The [while found < required_checks] loop, entered with the current
    values of [found] and [i].  It terminates because an iteration that
    starts with [i > max_loops] exits. *)
Equations wait_loop (conn_str : option string) (found i : nat) : M unit
  by wf (max_loops + 1 - i) lt :=
wait_loop conn_str found i with decide (found < required_checks) := {
  | right _ => ret tt
  | left _ with decide (max_loops < i) := {
    | left _ => sys_exit "Postgres still has not started. Exiting."
    | right _ =>
        time_sleep 5 ;;
        let* ready := pg_isready conn_str in
        let found := if ready then found + 1 else found in
        if decide (100 < i)
        then sys_exit "Postgres still not available. Exiting."
        else wait_loop conn_str found (i + 1) } }.
Next Obligation. unfold max_loops in *. lia. Qed.

Definition wait_for_postgres (conn_str : option string) : M unit :=
  wait_loop conn_str 0 0.

(** ** Environment, import and post-processing *)

Definition DEFAULT_SRID : string := "3857".

Definition os_environ_set (k v : string) : M unit := modify (set_environ k v).

Definition set_env_vars (region subregion : option string) (srid : string)
    (language : option string) (pgosm_date layerset : string)
    (layerset_path conn_str : option string) : M unit :=
  let pgosm_region :=
    match subregion with
    | None => Py.str region
    | Some sub => Py.str region +:+ "-" +:+ sub
    end in
  os_environ_set "PGOSM_REGION" pgosm_region ;;
  (if negb (bool_decide (srid = DEFAULT_SRID))
   then os_environ_set "PGOSM_SRID" srid else ret tt) ;;
  (match language with
   | Some lang => os_environ_set "PGOSM_LANGUAGE" lang
   | None => ret tt
   end) ;;
  (match layerset_path with
   | Some dir => os_environ_set "PGOSM_LAYERSET_PATH" dir
   | None => ret tt
   end) ;;
  os_environ_set "PGOSM_DATE" pgosm_date ;;
  os_environ_set "PGOSM_LAYERSET" layerset ;;
  os_environ_set "PGOSM_CONN"
    (match conn_str with
     | None => ext_connection_string ext
     | Some c => c
     end).

(** A call into the [db] module: it is recorded and either returns or
    raises. *)
Definition db_call (op : db_op) : M unit :=
  fun w =>
    let ok := ext_db ext op in
    let w' := emit (EvDb op ok) w in
    if ok then (Ok tt, w') else (Raise (DatabaseError op), w').

(** [conn_str] is left at its default [None] by the only caller. *)
Definition get_osm2pgsql_command (region : string) (subregion : option string)
    (ram : nat) (p : paths) (conn_str : option string) : M string :=
  let pbf_filename := get_region_filename region subregion in
  lift (ext_recommendation ext ram pbf_filename (out_path p) conn_str).

(** [subprocess.check_output(osm2pgsql_command.split(), cwd=flex_path)]. *)
Definition run_osm2pgsql (osm2pgsql_command : string) (p : paths) : M unit :=
  fun w =>
    let argv := Py.split osm2pgsql_command in
    let ok := ext_osm2pgsql ext argv (flex_path p) in
    let w' := emit (EvOsm2pgsql argv (flex_path p) ok) w in
    if ok then (Ok tt, w') else (Raise (CalledProcessError argv), w').

Definition run_post_processing (p : paths) (skip_nested : bool) : M unit :=
  db_call PgosmAfterImport ;;
  if skip_nested then ret tt else db_call PgosmNestedAdminPolygons.

(** ** The pipeline *)

(** What a run works from, once the first test of [run_pgosm_flex] has
    passed: a region to download, or a local file. *)
Inductive input_source : Type :=
  | FromRegion (region : string)
  | FromFile (input_file : string).

Definition run_pgosm_flex (layerset : string) (layerset_path : option string)
    (ram : nat) (region subregion : option string) (srid pgosm_date : string)
    (language : option string) (schema_name : string)
    (skip_nested data_only skip_dump debug : bool) (basepath : string)
    (input_file conn_str : option string) : M unit :=
  let* source :=
    match input_file, region with
    | None, None =>
        raise (ValueError "either region or input_file must be provided")
    | None, Some r => ret (FromRegion r)
    | Some f, _ => ret (FromFile f)
    end in
  let p := get_paths basepath in
  let subregion :=
    match source with
    | FromFile _ => subregion
    | FromRegion _ =>
        if bool_decide (subregion = Some "none") then None else subregion
    end in
  set_env_vars region subregion srid language pgosm_date layerset
    layerset_path conn_str ;;
  let* osm2pgsql_command :=
    match source with
    | FromRegion r =>
        prepare_data r subregion pgosm_date p ;;
        get_osm2pgsql_command r subregion ram p None
    | FromFile f => lift (ext_recommendation ext ram f (out_path p) conn_str)
    end in
  wait_for_postgres conn_str ;;
  db_call (PreparePgosmDb data_only) ;;
  run_osm2pgsql osm2pgsql_command p ;;
  let* skip_nested :=
    if negb skip_nested then check_layerset_places layerset_path layerset p
    else ret skip_nested in
  run_post_processing p skip_nested ;;
  let* export_filename :=
    match source with
    | FromRegion r =>
        remove_latest_files r subregion p ;;
        lift (get_export_filename r subregion layerset pgosm_date)
    | FromFile f => ret (Py.splitext_root f +:+ ".sql")
    end in
  (if negb (bool_decide (schema_name = "osm"))
   then db_call (RenameSchema schema_name) else ret tt) ;;
  if skip_dump then ret tt
  else db_call (RunPgDump export_filename (out_path p) data_only schema_name).

End Pipeline.

(** ** Sample surroundings, for running the embedding on concrete inputs *)

Definition sample_wget (url out : string) (files : gmap string string)
  : bool * gmap string string :=
  (true, <[out := "downloaded from " +:+ url]> files).

Definition sample_externals (today : string) (md5_ok : bool)
    (ready : nat -> bool) : externals :=
  {| ext_today := today;
     ext_wget := sample_wget;
     ext_md5sum := fun _ _ _ => md5_ok;
     ext_pg_isready := fun _ => ready;
     ext_recommendation :=
       fun _ pbf _ _ => Ok ("osm2pgsql --output=flex " +:+ pbf);
     ext_osm2pgsql := fun _ _ => true;
     ext_db := fun _ => true;
     ext_connection_string := "postgresql://postgres@localhost/pgosm" |}.

(** Events of a trace, by kind. *)
Definition is_download (e : event) : bool :=
  match e with EvWget _ _ _ => true | _ => false end.

Definition is_import (e : event) : bool :=
  match e with EvOsm2pgsql _ _ _ => true | _ => false end.

Definition is_failed_checksum (e : event) : bool :=
  match e with EvMd5sum _ _ false => true | _ => false end.

Definition count_events (kind : event -> bool) (tr : list event) : nat :=
  length (filter (fun e => Is_true (kind e)) tr).

Definition sample_world (files : list (string * string)) : world :=
  initial_world (list_to_map files) ∅.

(** The world after one iteration of the poller: a sleep of five seconds,
    then a readiness check. *)
Definition polled (ext : externals) (conn_str : option string) (w : world)
  : world :=
  {| fs := fs w; environ := environ w;
     trace := EvPgIsReady (ext_pg_isready ext conn_str (pg_calls w))
              :: EvSleep 5 :: trace w;
     pg_calls := S (pg_calls w) |}.

(** How many of the [n] readiness checks numbered from [c] succeed. *)
Fixpoint count_ready (ext : externals) (conn_str : option string) (c n : nat)
  : nat :=
  match n with
  | O => 0
  | S n' =>
      (if ext_pg_isready ext conn_str c then 1 else 0)
      + count_ready ext conn_str (S c) n'
  end.

Definition soft_timeout : exn :=
  SystemExit "Postgres still has not started. Exiting.".

Definition hard_timeout : exn :=
  SystemExit "Postgres still not available. Exiting.".

(** The world after [n] iterations of the poller. *)
Fixpoint polls (ext : externals) (conn_str : option string) (n : nat)
    (w : world) : world :=
  match n with
  | O => w
  | S n' => polls ext conn_str n' (polled ext conn_str w)
  end.

(** The durations of the sleeps and the answers of the readiness checks in a
    trace. *)
Definition sleep_seconds (tr : list event) : list nat :=
  omap (fun e => match e with EvSleep secs => Some secs | _ => None end) tr.

Definition check_results (tr : list event) : list bool :=
  omap (fun e => match e with EvPgIsReady r => Some r | _ => None end) tr.

(** ** Trace specifications of computations *)

Definition is_checksum (e : event) : bool :=
  match e with EvMd5sum _ _ _ => true | _ => false end.

Definition quiet (e : event) : bool :=
  negb (is_checksum e) && negb (is_import e).

Definition is_raise {A} (r : result A) : Prop :=
  match r with Raise _ => True | Ok _ => False end.

(** [m] adds only events of kind [good] to the trace. *)
Definition emits {A} (good : event -> bool) (m : M A) : Prop :=
  forall w r w', m w = (r, w') ->
    exists new, trace w' = (new ++ trace w)%list /\ Forall (fun e => good e) new.

(** [m] runs no import, and a failed checksum among its events makes it
    raise. *)
Definition guards_checksum {A} (m : M A) : Prop :=
  forall w r w', m w = (r, w') ->
    exists new,
      trace w' = (new ++ trace w)%list
      /\ Forall (fun e => negb (is_import e)) new
      /\ (Exists (fun e => is_failed_checksum e) new -> is_raise r).

(** A failed checksum among the events of [m] makes it raise without having
    run an import. *)
Definition aborts_before_import {A} (m : M A) : Prop :=
  forall w r w', m w = (r, w') ->
    exists new,
      trace w' = (new ++ trace w)%list
      /\ (Exists (fun e => is_failed_checksum e) new ->
          is_raise r /\ count_events is_import new = 0).

(** ** Further definitions *)

(** [get_log_path]: the log file lies in [out_path]; the [print] calls are
    left out. *)
Definition get_log_path (region : string) (subregion : option string)
    (p : paths) : string :=
  Py.path_join (out_path p) (get_log_filename region subregion).

(** The last character of a string. *)
Fixpoint last_char (s : string) : option ascii :=
  match s with
  | EmptyString => None
  | String c EmptyString => Some c
  | String _ s' => last_char s'
  end.

(** The logical and dated paths [prepare_data] works with. *)
Definition logical_pbf (region : string) (subregion : option string)
    (p : paths) : string :=
  Py.path_join (out_path p) (get_region_filename region subregion).

Definition dated_pbf (region : string) (subregion : option string)
    (pgosm_date : string) (p : paths) : string :=
  Py.replace "latest" pgosm_date (logical_pbf region subregion p).

(** Stages of the pipeline, as events. *)
Definition is_prepared (e : event) : bool :=
  match e with EvDb (PreparePgosmDb _) true => true | _ => false end.

Definition is_imported (e : event) : bool :=
  match e with EvOsm2pgsql _ _ true => true | _ => false end.

Definition is_after_import (e : event) : bool :=
  match e with EvDb PgosmAfterImport _ => true | _ => false end.

Definition is_post_processed (e : event) : bool :=
  match e with EvDb PgosmAfterImport true => true | _ => false end.

Definition is_nested (e : event) : bool :=
  match e with EvDb PgosmNestedAdminPolygons _ => true | _ => false end.

Definition is_dump (e : event) : bool :=
  match e with EvDb (RunPgDump _ _ _ _) _ => true | _ => false end.

Definition is_rename (e : event) : bool :=
  match e with EvDb (RenameSchema _) _ => true | _ => false end.

(** [m] leaves the data files of [fs] as they are. *)
Definition keeps_fs {A} (m : M A) : Prop :=
  forall w r w', m w = (r, w') -> fs w' = fs w.

(** Among the events of [m], one of kind [bad] is only found together with
    one of kind [gate], and [m] does not return normally without one of kind
    [gate]. *)
Definition gated {A} (gate bad : event -> bool) (m : M A) : Prop :=
  forall w r w', m w = (r, w') ->
    exists new,
      trace w' = (new ++ trace w)%list
      /\ (Exists (fun e => bad e) new -> Exists (fun e => gate e) new)
      /\ (~ is_raise r -> Exists (fun e => gate e) new).

(** [m] adds exactly one event, not of kind [bad], and of kind [gate] when
    [m] returns normally. *)
Definition opens_gate {A} (gate bad : event -> bool) (m : M A) : Prop :=
  forall w r w', m w = (r, w') ->
    exists e,
      trace w' = e :: trace w /\ negb (bad e) /\ (~ is_raise r -> gate e).

(** [m] always raises, having added only events of kind [good]. *)
Definition never_completes {A} (good : event -> bool) (m : M A) : Prop :=
  forall w r w', m w = (r, w') ->
    is_raise r
    /\ exists new, trace w' = (new ++ trace w)%list
                   /\ Forall (fun e => good e) new.

(** Whether [old] occurs in [s]. *)
Fixpoint contains (old s : string) : bool :=
  String.prefix old s
  || match s with
     | EmptyString => false
     | String _ s' => contains old s'
     end.

(** The environment variables [set_env_vars] may write. *)
Definition pgosm_variables : list string :=
  ["PGOSM_REGION"; "PGOSM_SRID"; "PGOSM_LANGUAGE"; "PGOSM_LAYERSET_PATH";
   "PGOSM_DATE"; "PGOSM_LAYERSET"; "PGOSM_CONN"].

Definition is_ready (e : event) : bool :=
  match e with EvPgIsReady true => true | _ => false end.

Definition is_db_work (e : event) : bool :=
  match e with
  | EvDb _ _ | EvOsm2pgsql _ _ _ => true
  | _ => false
  end.

(** [m], started with files satisfying [pre], ends with files satisfying
    [post] whenever it returns normally. *)
Definition hoare {A} (pre : gmap string string -> Prop) (m : M A)
    (post : gmap string string -> Prop) : Prop :=
  forall w a w', pre (fs w) -> m w = (Ok a, w') -> post (fs w').

(** Database work among the events of [m] comes with exactly
    [required_checks] passed readiness checks. *)
Definition readiness_gated {A} (m : M A) : Prop :=
  forall w r w', m w = (r, w') ->
    exists new,
      trace w' = (new ++ trace w)%list
      /\ (Exists (fun e => is_db_work e) new ->
          count_events is_ready new = required_checks).

(** * Properties *)

(** ** Sanity checks of the string primitives *)

Example splitext_root_pbf :
  Py.splitext_root "/data/extract.osm.pbf" = "/data/extract.osm".
Proof. reflexivity. Qed.

Example splitext_root_hidden :
  Py.splitext_root "dir.d/.bashrc" = "dir.d/.bashrc".
Proof. reflexivity. Qed.

Example split_command :
  Py.split "  osm2pgsql  -d x
 y " = ["osm2pgsql"; "-d"; "x"; "y"].
Proof. reflexivity. Qed.

Example lines_of_text :
  Py.lines "a
b

c
" = ["a"; "b"; ""; "c"].
Proof. reflexivity. Qed.

Example strip_spaces : Py.strip "  a b  " = "a b".
Proof. reflexivity. Qed.

Example lower_mixed : Py.lower "PlaCe_1" = "place_1".
Proof. reflexivity. Qed.

Example replace_latest :
  Py.replace "latest" "2021-01-13" "/app/output/a-latest.osm.pbf"
  = "/app/output/a-2021-01-13.osm.pbf".
Proof. reflexivity. Qed.

Example replace_no_overlap : Py.replace "aa" "b" "aaaaa" = "bba".
Proof. reflexivity. Qed.

Example path_join_cases :
  Py.path_join "/app/" "x" = "/app/x" /\ Py.path_join "/app" "x" = "/app/x"
  /\ Py.path_join "/app" "/x" = "/x" /\ Py.path_join "" "x" = "x".
Proof. repeat split; reflexivity. Qed.

Example read_string_layerset :
  ConfigParser.read_string "# layers
[layerset]
Place = true
amenity=false

[DEFAULT]
x : 1
" = Ok {| ConfigParser.defaults := {["x" := "1"]};
          ConfigParser.sections :=
            {["layerset" := <["amenity" := "false"]> {["place" := "true"]}]} |}.
Proof. vm_compute. reflexivity. Qed.

(** ** Artifact namer *)

Lemma prefix_slash (c : ascii) (s : string) :
  String.prefix "/" (String c s) = Ascii.eqb c "/".
Proof.
  cbn -[ascii_dec]. destruct (ascii_dec "/" c) as [<- | Hne].
  - by destruct s.
  - symmetry. apply Ascii.eqb_neq. congruence.
Qed.

(** Replacing ["/"] by ["-"] rewrites every slash, character by character. *)
Lemma replace_slash_map_chars (s : string) :
  Py.replace "/" "-" s = Py.map_chars Py.slash_to_hyphen s.
Proof.
  unfold Py.replace. induction s as [| c s IH]; [reflexivity |].
  cbn [Py.replace_aux Py.map_chars]. rewrite prefix_slash.
  unfold Py.slash_to_hyphen. cbn [String.length Nat.sub].
  destruct (Ascii.eqb c "/"); cbn; by rewrite IH.
Qed.

Lemma map_chars_slash_free (s : string) :
  Py.has_char "/" (Py.map_chars Py.slash_to_hyphen s) = false.
Proof.
  induction s as [| c s IH]; [reflexivity |].
  cbn [Py.map_chars Py.has_char]. rewrite IH, orb_false_r.
  unfold Py.slash_to_hyphen. destruct (Ascii.eqb c "/") eqn:E; [reflexivity | exact E].
Qed.

(** With a subregion the export filename has the stated shape, slashes
    replaced by hyphens in both region and subregion. *)
Lemma get_export_filename_some (region sub layerset pgosm_date : string) :
  get_export_filename region (Some sub) layerset pgosm_date
  = Ok ("pgosm-flex-" +:+ Py.map_chars Py.slash_to_hyphen region +:+ "-"
        +:+ Py.map_chars Py.slash_to_hyphen sub +:+ "-" +:+ layerset +:+ "-"
        +:+ pgosm_date +:+ ".sql").
Proof.
  unfold get_export_filename. by rewrite !replace_slash_map_chars.
Qed.

Example get_export_filename_dc :
  get_export_filename "north-america/us" (Some "district-of-columbia")
    "default" "2021-01-13"
  = Ok "pgosm-flex-north-america-us-district-of-columbia-default-2021-01-13.sql".
Proof. reflexivity. Qed.

(** C1. The claim gives the export filename
    ["pgosm-flex-{region}-{layerset}-{date}.sql"] for an absent subregion.
    The function calls [subregion.replace] before it tests [subregion], so
    for every region, layerset and date an absent subregion makes it raise
    [AttributeError] instead of returning a name. *)
Theorem get_export_filename_none_raises (region layerset pgosm_date : string) :
  get_export_filename region None layerset pgosm_date = Raise AttributeError.
Proof. reflexivity. Qed.

(** The sibling [get_log_path] cleans the region only and reaches its
    branch for an absent subregion. *)
Lemma get_log_filename_none (region : string) :
  get_log_filename region None
  = Py.map_chars Py.slash_to_hyphen region +:+ ".log".
Proof. unfold get_log_filename. by rewrite replace_slash_map_chars. Qed.

(** C9. [get_region_filename] and [get_pbf_url] are functions of their two
    arguments: equal arguments give equal strings, and the strings have the
    stated shapes, ["{subregion}-latest.osm.pbf"] and
    ["{baseURL}/{region}/{subregion}-latest.osm.pbf"] with a subregion,
    ["{region}-latest.osm.pbf"] and ["{baseURL}/{region}-latest.osm.pbf"]
    without. *)
Theorem namer_deterministic_shapes (region region' : string)
    (subregion subregion' : option string) :
  region = region' -> subregion = subregion' ->
  get_region_filename region subregion = get_region_filename region' subregion'
  /\ get_pbf_url region subregion = get_pbf_url region' subregion'
  /\ (forall sub, subregion = Some sub ->
        get_region_filename region subregion = sub +:+ "-latest.osm.pbf"
        /\ get_pbf_url region subregion
           = base_url +:+ "/" +:+ region +:+ "/" +:+ sub +:+ "-latest.osm.pbf")
  /\ (subregion = None ->
        get_region_filename region subregion = region +:+ "-latest.osm.pbf"
        /\ get_pbf_url region subregion
           = base_url +:+ "/" +:+ region +:+ "-latest.osm.pbf").
Proof.
  intros <- <-. repeat split; intros; subst; reflexivity.
Qed.

Lemma namer_deterministic_shapes_witness :
  get_region_filename "north-america/us" (Some "district-of-columbia")
  = "district-of-columbia-latest.osm.pbf"
  /\ get_pbf_url "north-america/us" (Some "district-of-columbia")
     = "https://download.geofabrik.de/north-america/us/district-of-columbia-latest.osm.pbf"
  /\ get_region_filename "antarctica" None = "antarctica-latest.osm.pbf"
  /\ get_pbf_url "antarctica" None
     = "https://download.geofabrik.de/antarctica-latest.osm.pbf".
Proof.
  pose proof (namer_deterministic_shapes "north-america/us" "north-america/us"
                (Some "district-of-columbia") (Some "district-of-columbia")
                eq_refl eq_refl) as (_ & _ & Hsome & _).
  pose proof (namer_deterministic_shapes "antarctica" "antarctica" None None
                eq_refl eq_refl) as (_ & _ & _ & Hnone).
  destruct (Hsome _ eq_refl) as [H1 H2]. destruct (Hnone eq_refl) as [H3 H4].
  repeat split; assumption.
Defined.

(** ** File-system primitives *)

Lemma os_path_exists_some (p c : string) (w : world) :
  fs w !! p = Some c -> os_path_exists p w = (Ok true, w).
Proof. intros H. unfold os_path_exists. by rewrite H. Qed.

Lemma os_path_exists_none (p : string) (w : world) :
  fs w !! p = None -> os_path_exists p w = (Ok false, w).
Proof. intros H. unfold os_path_exists. by rewrite H. Qed.

Lemma shutil_copy2_ok (src dst c : string) (w : world) :
  fs w !! src = Some c -> src <> dst ->
  shutil_copy2 src dst w = (Ok tt, set_fs (<[dst := c]> (fs w)) w).
Proof.
  intros H Hne. unfold shutil_copy2. rewrite H.
  by rewrite bool_decide_eq_false_2.
Qed.

(** Whatever a copy returns, files other than [dst] keep their content. *)
Lemma shutil_copy2_frame (src dst : string) (w w' : world) (r : result unit) :
  shutil_copy2 src dst w = (r, w') ->
  forall q, q <> dst -> fs w' !! q = fs w !! q.
Proof.
  unfold shutil_copy2. intros H q Hq.
  destruct (fs w !! src); [destruct (bool_decide (src = dst)) |];
    injection H as <- <-; cbn; try done.
  by rewrite lookup_insert_ne.
Qed.

(** A copy that completed had a source other than its destination, and the
    destination holds the source's content. *)
Lemma shutil_copy2_inv (src dst : string) (w w' : world) :
  shutil_copy2 src dst w = (Ok tt, w') ->
  exists c, fs w !! src = Some c /\ src <> dst
            /\ w' = set_fs (<[dst := c]> (fs w)) w.
Proof.
  unfold shutil_copy2. intros H.
  destruct (fs w !! src) as [c |]; [| discriminate].
  destruct (decide (src = dst)) as [Heq | Hne].
  - rewrite bool_decide_eq_true_2 in H by done. discriminate.
  - rewrite bool_decide_eq_false_2 in H by done. inversion H. eauto.
Qed.

Lemma string_length_app (s t : string) :
  String.length (s +:+ t) = String.length s + String.length t.
Proof.
  induction s as [| c s IH]; [done |].
  change (S (String.length (s +:+ t)) = S (String.length s + String.length t)).
  by rewrite IH.
Qed.

Lemma string_app_md5_ne (s : string) : s <> s +:+ ".md5".
Proof.
  intros H. apply (f_equal String.length) in H.
  rewrite string_length_app in H. cbn in H. lia.
Qed.

(** ** Archive and restore *)

(** Archiving leaves every file that exists in place, whatever the four
    paths are and whether or not it completes. *)
Lemma archive_data_keeps_existing (pbf_file md5_file pbf_dated md5_dated : string)
    (w w' : world) (r : result unit) :
  archive_data pbf_file md5_file pbf_dated md5_dated w = (r, w') ->
  forall q c, fs w !! q = Some c -> fs w' !! q = Some c.
Proof.
  unfold archive_data, bind, os_path_exists, ret. intros H q c Hq.
  destruct (fs w !! pbf_dated) as [cd |] eqn:Hd; cbn in H.
  - destruct (fs w !! md5_dated) as [cm |] eqn:Hm; cbn in H.
    + by inversion H; subst.
    + destruct (decide (q = md5_dated)) as [-> | Hne]; [congruence |].
      rewrite (shutil_copy2_frame _ _ _ _ _ H q Hne). done.
  - destruct (shutil_copy2 pbf_file pbf_dated w) as [[[] | e] w1] eqn:H1.
    + assert (Hq1 : fs w1 !! q = Some c).
      { destruct (decide (q = pbf_dated)) as [-> | Hne]; [congruence |].
        by rewrite (shutil_copy2_frame _ _ _ _ _ H1 q Hne). }
      destruct (fs w1 !! md5_dated) as [cm |] eqn:Hm; cbn in H.
      * by inversion H; subst.
      * destruct (decide (q = md5_dated)) as [-> | Hne]; [congruence |].
        by rewrite (shutil_copy2_frame _ _ _ _ _ H q Hne).
    + inversion H; subst.
      destruct (decide (q = pbf_dated)) as [-> | Hne]; [congruence |].
      by rewrite (shutil_copy2_frame _ _ _ _ _ H1 q Hne).
Qed.

(** A dated payload that is absent is written from the logical payload,
    and what follows leaves it alone. *)
Lemma archive_data_creates_pbf (pbf_file md5_file pbf_dated md5_dated cp : string)
    (w w' : world) (r : result unit) :
  fs w !! pbf_dated = None -> fs w !! pbf_file = Some cp ->
  archive_data pbf_file md5_file pbf_dated md5_dated w = (r, w') ->
  fs w' !! pbf_dated = Some cp.
Proof.
  intros Hpd Hp. unfold archive_data, bind.
  rewrite (os_path_exists_none _ _ Hpd).
  rewrite (shutil_copy2_ok _ _ _ _ Hp) by congruence.
  set (w1 := set_fs (<[pbf_dated := cp]> (fs w)) w).
  assert (H1 : fs w1 !! pbf_dated = Some cp) by apply lookup_insert_eq.
  destruct (fs w1 !! md5_dated) as [cm |] eqn:Hmd.
  - rewrite (os_path_exists_some _ _ _ Hmd). intros H. by inversion H; subst.
  - rewrite (os_path_exists_none _ _ Hmd). intros H.
    rewrite (shutil_copy2_frame _ _ _ _ _ H); [done | congruence].
Qed.

(** A dated checksum that is absent is written from the logical checksum,
    whether the dated payload was there or has just been written. *)
Lemma archive_data_creates_md5 (pbf_file md5_file pbf_dated md5_dated cm : string)
    (w : world) :
  fs w !! md5_dated = None -> fs w !! md5_file = Some cm ->
  pbf_dated <> md5_dated ->
  is_Some (fs w !! pbf_dated) \/ is_Some (fs w !! pbf_file) ->
  exists w',
    archive_data pbf_file md5_file pbf_dated md5_dated w = (Ok tt, w')
    /\ fs w' !! md5_dated = Some cm.
Proof.
  intros Hmd Hm Hne Hsrc. unfold archive_data, bind.
  destruct (fs w !! pbf_dated) as [cd |] eqn:Hpd.
  - rewrite (os_path_exists_some _ _ _ Hpd). cbn [ret].
    rewrite (os_path_exists_none _ _ Hmd).
    rewrite (shutil_copy2_ok _ _ _ _ Hm) by congruence.
    eexists. split; [reflexivity | apply lookup_insert_eq].
  - destruct Hsrc as [[? ?] | [cp Hp]]; [congruence |].
    rewrite (os_path_exists_none _ _ Hpd).
    rewrite (shutil_copy2_ok _ _ _ _ Hp) by congruence.
    rewrite os_path_exists_none by (cbn; by rewrite lookup_insert_ne).
    rewrite (shutil_copy2_ok _ _ cm); cbn.
    + eexists. split; [reflexivity | apply lookup_insert_eq].
    + rewrite lookup_insert_ne; [done | congruence].
    + congruence.
Qed.

Lemma unarchive_data_overwrites (pbf_file md5_file pbf_dated md5_dated cp cm : string)
    (w : world) :
  fs w !! pbf_dated = Some cp -> fs w !! md5_dated = Some cm ->
  pbf_file <> pbf_dated -> md5_file <> md5_dated -> pbf_file <> md5_dated ->
  unarchive_data pbf_file md5_file pbf_dated md5_dated w
  = (Ok tt, set_fs (<[md5_file := cm]> (<[pbf_file := cp]> (fs w))) w).
Proof.
  intros Hpd Hmd H1 H2 H3. unfold unarchive_data, bind.
  rewrite (shutil_copy2_ok _ _ _ _ Hpd) by congruence.
  rewrite (shutil_copy2_ok _ _ cm); cbn; [done | | congruence].
  rewrite lookup_insert_ne; [done | congruence].
Qed.

(** A completed archive had a payload to copy wherever the dated payload
    was missing. *)
Lemma archive_data_ok_source (pbf_file md5_file pbf_dated md5_dated : string)
    (w w' : world) :
  archive_data pbf_file md5_file pbf_dated md5_dated w = (Ok tt, w') ->
  fs w !! pbf_dated = None -> is_Some (fs w !! pbf_file).
Proof.
  intros H Hpd. unfold archive_data, bind in H.
  rewrite (os_path_exists_none _ _ Hpd) in H.
  destruct (shutil_copy2 pbf_file pbf_dated w) as [[[] | e] w1] eqn:Hc;
    [| discriminate].
  apply shutil_copy2_inv in Hc as (c & Hc & _). eauto.
Qed.

(** A completed restore has put the content of the dated pair on the
    logical paths. *)
Lemma unarchive_data_ok_contents
    (pbf_file md5_file pbf_dated md5_dated cp cm : string) (w w' : world) :
  unarchive_data pbf_file md5_file pbf_dated md5_dated w = (Ok tt, w') ->
  fs w !! pbf_dated = Some cp -> fs w !! md5_dated = Some cm ->
  pbf_file <> md5_dated -> pbf_file <> md5_file ->
  fs w' !! pbf_file = Some cp /\ fs w' !! md5_file = Some cm.
Proof.
  intros H Hpd Hmd H1 H2. unfold unarchive_data, bind in H.
  destruct (shutil_copy2 pbf_dated pbf_file w) as [[[] | e] w1] eqn:Hc1;
    [| discriminate].
  apply shutil_copy2_inv in Hc1 as (c1 & Hsrc1 & _ & ->).
  apply shutil_copy2_inv in H as (c2 & Hsrc2 & _ & ->).
  cbn in Hsrc2. rewrite lookup_insert_ne in Hsrc2 by done.
  assert (c1 = cp) as -> by congruence.
  assert (c2 = cm) as -> by congruence.
  cbn. by rewrite lookup_insert_ne, !lookup_insert_eq by congruence.
Qed.

(** C6. Archiving writes a dated file only where none exists.  Every
    file present before [archive_data] is present with the same content
    after it, whether or not it completes, so an existing dated file is
    never overwritten; when it completes, a dated payload that was absent
    holds the content of the logical payload, and a dated checksum that was
    absent the content of the logical checksum.  Restoring checks nothing:
    when [unarchive_data] completes, the logical pair holds the content of
    the dated pair, and over a logical pair that is already in place it does
    complete, replacing what was there. *)
Theorem archive_write_once_restore_overwrites
    (pbf_file md5_file pbf_dated md5_dated : string) (w : world) :
  (forall r w' q c,
      archive_data pbf_file md5_file pbf_dated md5_dated w = (r, w') ->
      fs w !! q = Some c -> fs w' !! q = Some c)
  /\ (forall w' cp,
      archive_data pbf_file md5_file pbf_dated md5_dated w = (Ok tt, w') ->
      fs w !! pbf_dated = None -> fs w !! pbf_file = Some cp ->
      fs w' !! pbf_dated = Some cp)
  /\ (forall w' cm,
      archive_data pbf_file md5_file pbf_dated md5_dated w = (Ok tt, w') ->
      fs w !! md5_dated = None -> fs w !! md5_file = Some cm ->
      pbf_dated <> md5_dated ->
      fs w' !! md5_dated = Some cm)
  /\ (forall w' cp cm,
      unarchive_data pbf_file md5_file pbf_dated md5_dated w = (Ok tt, w') ->
      fs w !! pbf_dated = Some cp -> fs w !! md5_dated = Some cm ->
      pbf_file <> md5_dated -> pbf_file <> md5_file ->
      fs w' !! pbf_file = Some cp /\ fs w' !! md5_file = Some cm)
  /\ (forall cp cm,
      is_Some (fs w !! pbf_file) -> is_Some (fs w !! md5_file) ->
      fs w !! pbf_dated = Some cp -> fs w !! md5_dated = Some cm ->
      pbf_file <> pbf_dated -> md5_file <> md5_dated ->
      pbf_file <> md5_dated -> pbf_file <> md5_file ->
      exists w',
        unarchive_data pbf_file md5_file pbf_dated md5_dated w = (Ok tt, w')
        /\ fs w' !! pbf_file = Some cp /\ fs w' !! md5_file = Some cm).
Proof.
  split; [| split; [| split; [| split]]].
  - intros r w' q c H. by apply archive_data_keeps_existing with (1 := H).
  - intros w' cp H Hpd Hp.
    by apply (archive_data_creates_pbf _ _ _ _ _ _ _ _ Hpd Hp H).
  - intros w' cm H Hmd Hm Hne.
    destruct (archive_data_creates_md5 pbf_file md5_file pbf_dated md5_dated
                cm w Hmd Hm Hne) as (w'' & H' & Hcm).
    + destruct (fs w !! pbf_dated) as [cpd |] eqn:Hpd; [left; eauto | right].
      by apply (archive_data_ok_source _ _ _ _ _ _ H).
    + rewrite H in H'. by inversion H'; subst.
  - intros w' cp cm H. by apply unarchive_data_ok_contents.
  - intros cp cm _ _ Hpd Hmd H1 H2 H3 H4. eexists. split.
    + by apply unarchive_data_overwrites.
    + cbn. rewrite lookup_insert_ne, !lookup_insert_eq by congruence. done.
Qed.

Lemma archive_write_once_restore_overwrites_witness :
  let pbf := "/app/output/dc-latest.osm.pbf" in
  let md5 := "/app/output/dc-latest.osm.pbf.md5" in
  let pbf_dated := "/app/output/dc-2021-01-13.osm.pbf" in
  let md5_dated := "/app/output/dc-2021-01-13.osm.pbf.md5" in
  let archived := sample_world [(pbf, "new pbf"); (md5, "new md5");
                                (pbf_dated, "old pbf"); (md5_dated, "old md5")] in
  let partial := sample_world [(pbf, "new pbf"); (md5, "new md5");
                               (md5_dated, "old md5")] in
  let fresh := sample_world [(pbf, "new pbf"); (md5, "new md5")] in
  fs (archive_data pbf md5 pbf_dated md5_dated archived).2 !! pbf_dated
    = Some "old pbf"
  /\ fs (archive_data pbf md5 pbf_dated md5_dated partial).2 !! md5_dated
    = Some "old md5"
  /\ fs (archive_data pbf md5 pbf_dated md5_dated partial).2 !! pbf_dated
    = Some "new pbf"
  /\ fs (archive_data pbf md5 pbf_dated md5_dated fresh).2 !! md5_dated
    = Some "new md5"
  /\ fs (unarchive_data pbf md5 pbf_dated md5_dated archived).2 !! pbf
    = Some "old pbf"
  /\ (exists w', unarchive_data pbf md5 pbf_dated md5_dated archived = (Ok tt, w')
        /\ fs w' !! pbf = Some "old pbf" /\ fs w' !! md5 = Some "old md5").
Proof.
  intros pbf md5 pbf_dated md5_dated archived partial fresh.
  pose proof (archive_write_once_restore_overwrites
                pbf md5 pbf_dated md5_dated archived)
    as (Hkeep & _ & _ & Hcontents & Hrestore).
  pose proof (archive_write_once_restore_overwrites
                pbf md5 pbf_dated md5_dated partial) as (Hkeep' & Hpbf & _).
  pose proof (archive_write_once_restore_overwrites
                pbf md5 pbf_dated md5_dated fresh) as (_ & _ & Hmd5 & _).
  split; [| split; [| split; [| split; [| split]]]].
  - apply (Hkeep (archive_data pbf md5 pbf_dated md5_dated archived).1).
    + apply surjective_pairing.
    + vm_compute. reflexivity.
  - apply (Hkeep' (archive_data pbf md5 pbf_dated md5_dated partial).1).
    + apply surjective_pairing.
    + vm_compute. reflexivity.
  - apply Hpbf; vm_compute; reflexivity.
  - apply Hmd5; try (vm_compute; reflexivity). vm_compute. discriminate.
  - apply (Hcontents _ "old pbf" "old md5"); try (vm_compute; reflexivity);
      vm_compute; discriminate.
  - apply Hrestore; try (vm_compute; reflexivity); try (vm_compute; eauto);
      vm_compute; discriminate.
Defined.

(** ** Cleanup *)

(** C10. [remove_latest_files] needs both logical files.  When both exist
    it returns normally, both are gone afterwards and every other path, in
    particular every dated file, keeps what it held; the environment and the
    trace are untouched.  When the payload or the checksum file is absent it
    raises [FileNotFoundError]. *)
Theorem remove_latest_files_exact (region : string) (subregion : option string)
    (p : paths) (w : world) :
  let pbf_file := Py.path_join (out_path p) (get_region_filename region subregion) in
  let md5_file := pbf_file +:+ ".md5" in
  (is_Some (fs w !! pbf_file) -> is_Some (fs w !! md5_file) ->
   exists w',
     remove_latest_files region subregion p w = (Ok tt, w')
     /\ fs w' !! pbf_file = None /\ fs w' !! md5_file = None
     /\ (forall q, q <> pbf_file -> q <> md5_file -> fs w' !! q = fs w !! q)
     /\ environ w' = environ w /\ trace w' = trace w)
  /\ (fs w !! pbf_file = None \/ fs w !! md5_file = None ->
      exists msg w',
        remove_latest_files region subregion p w
        = (Raise (FileNotFoundError msg), w')).
Proof.
  intros pbf_file md5_file. unfold remove_latest_files, bind, os_remove.
  fold pbf_file. fold md5_file.
  assert (Hne : pbf_file <> md5_file) by apply string_app_md5_ne.
  split.
  - intros [cp Hp] [cm Hm]. rewrite Hp. cbn.
    rewrite lookup_delete_ne, Hm by done.
    eexists. split; [reflexivity |]. cbn.
    rewrite lookup_delete_eq, lookup_delete_ne, lookup_delete_eq by done.
    repeat split. intros q H1 H2. by rewrite !lookup_delete_ne.
  - intros [Hp | Hm].
    + rewrite Hp. eauto.
    + destruct (fs w !! pbf_file) as [cp |]; [| eauto]. cbn.
      rewrite lookup_delete_ne, Hm by done. eauto.
Qed.

Lemma remove_latest_files_exact_witness :
  let p := get_paths "/app" in
  let pbf := "/app/output/district-of-columbia-latest.osm.pbf" in
  let dated := "/app/output/district-of-columbia-2021-01-13.osm.pbf" in
  let both := sample_world [(pbf, "pbf"); (pbf +:+ ".md5", "md5");
                            (dated, "pbf"); (dated +:+ ".md5", "md5")] in
  let lonely := sample_world [(pbf, "pbf"); (dated, "pbf")] in
  (exists w',
     remove_latest_files "north-america/us" (Some "district-of-columbia") p both
     = (Ok tt, w')
     /\ fs w' !! pbf = None /\ fs w' !! dated = Some "pbf"
     /\ fs w' !! (dated +:+ ".md5") = Some "md5")
  /\ (exists msg w',
     remove_latest_files "north-america/us" (Some "district-of-columbia") p lonely
     = (Raise (FileNotFoundError msg), w')).
Proof.
  intros p pbf dated both lonely. split.
  - destruct (proj1 (remove_latest_files_exact "north-america/us"
                       (Some "district-of-columbia") p both))
      as (w' & Hrun & Hpbf & _ & Hframe & _).
    + vm_compute. eauto.
    + vm_compute. eauto.
    + exists w'. split; [exact Hrun |]. split; [exact Hpbf |].
      rewrite !Hframe by (vm_compute; discriminate).
      split; vm_compute; reflexivity.
  - apply (proj2 (remove_latest_files_exact "north-america/us"
                    (Some "district-of-columbia") p lonely)).
    right. vm_compute. reflexivity.
Defined.

(** ** Download decision *)

(** C4. For a historical run date, a missing dated payload, or a dated
    payload without its dated checksum, makes [prepare_data] raise
    [FileNotFoundError] and leave the world as it found it: no file is
    written and no event, hence no download, is added to the trace. *)
Theorem prepare_data_historical_missing (ext : externals) (region : string)
    (subregion : option string) (pgosm_date : string) (p : paths) (w : world) :
  let pbf_file := Py.path_join (out_path p) (get_region_filename region subregion) in
  let pbf_dated := Py.replace "latest" pgosm_date pbf_file in
  let md5_dated := pbf_dated +:+ ".md5" in
  pgosm_date <> ext_today ext ->
  fs w !! pbf_dated = None
  \/ (is_Some (fs w !! pbf_dated) /\ fs w !! md5_dated = None) ->
  exists msg w',
    prepare_data ext region subregion pgosm_date p w
    = (Raise (FileNotFoundError msg), w')
    /\ fs w' = fs w /\ trace w' = trace w
    /\ count_events is_download (trace w') = count_events is_download (trace w).
Proof.
  intros pbf_file pbf_dated md5_dated Hdate Hmissing.
  unfold prepare_data, bind, pbf_download_needed, bind, get_today, ret, raise.
  fold pbf_file. fold pbf_dated. fold md5_dated.
  destruct Hmissing as [Hp | [[c Hp] Hm]].
  - rewrite (os_path_exists_none _ _ Hp).
    rewrite bool_decide_eq_false_2 by done. cbn. eauto 6.
  - rewrite (os_path_exists_some _ _ _ Hp), (os_path_exists_none _ _ Hm).
    rewrite bool_decide_eq_false_2 by done. eauto 6.
Qed.

Lemma prepare_data_historical_missing_witness :
  let ext := sample_externals "2021-01-13" true (fun _ => true) in
  let p := get_paths "/app" in
  let dated := "/app/output/district-of-columbia-2020-12-01.osm.pbf" in
  (exists msg w',
     prepare_data ext "north-america/us" (Some "district-of-columbia")
       "2020-12-01" p (sample_world [])
     = (Raise (FileNotFoundError msg), w') /\ trace w' = [])
  /\ (exists msg w',
     prepare_data ext "north-america/us" (Some "district-of-columbia")
       "2020-12-01" p (sample_world [(dated, "pbf")])
     = (Raise (FileNotFoundError msg), w') /\ trace w' = []).
Proof.
  intros ext p dated. split.
  - destruct (prepare_data_historical_missing ext "north-america/us"
                (Some "district-of-columbia") "2020-12-01" p (sample_world []))
      as (msg & w' & Hrun & _ & Htrace & _).
    + vm_compute. discriminate.
    + left. vm_compute. reflexivity.
    + exists msg, w'. split; [exact Hrun | exact Htrace].
  - destruct (prepare_data_historical_missing ext "north-america/us"
                (Some "district-of-columbia") "2020-12-01" p
                (sample_world [(dated, "pbf")]))
      as (msg & w' & Hrun & _ & Htrace & _).
    + vm_compute. discriminate.
    + right. split; [vm_compute; eauto | vm_compute; reflexivity].
    + exists msg, w'. split; [exact Hrun | exact Htrace].
Defined.

(** On the run date itself the same two situations lead to a download. *)
Example prepare_data_today_downloads :
  let ext := sample_externals "2021-01-13" true (fun _ => true) in
  let r := prepare_data ext "north-america/us" (Some "district-of-columbia")
             "2021-01-13" (get_paths "/app") (sample_world []) in
  r.1 = Ok "/app/output/district-of-columbia-latest.osm.pbf"
  /\ count_events is_download (trace r.2) = 2
  /\ is_Some (fs r.2 !! "/app/output/district-of-columbia-2021-01-13.osm.pbf")
  /\ is_Some (fs r.2 !! "/app/output/district-of-columbia-2021-01-13.osm.pbf.md5").
Proof. vm_compute. repeat split; eauto. Qed.

(** ** Nested-polygon decision *)

(** What [check_layerset_places] returns, in terms of the configuration read
    from the layerset file: [skip_nested] is true when the key is missing
    or its value is the empty string. *)
Lemma check_layerset_places_spec (layerset_path : option string)
    (layerset : string) (p : paths) (w : world) (config : ConfigParser.config) :
  let dir := default (Py.path_join (flex_path p) "layerset") layerset_path in
  ConfigParser.read (fs w) (Py.path_join dir (layerset +:+ ".ini")) = Ok config ->
  check_layerset_places layerset_path layerset p w
  = (Ok (match ConfigParser.getitem config "layerset" "place" with
         | None => true
         | Some place => negb (Py.truthy place)
         end), w).
Proof.
  intros dir Hread. unfold check_layerset_places.
  replace (match layerset_path with
           | Some d => d
           | None => Py.path_join (flex_path p) "layerset"
           end) with dir by (by destruct layerset_path).
  rewrite Hread.
  destruct (ConfigParser.getitem config "layerset" "place") as [place |];
    [by destruct (Py.truthy place) | done].
Qed.

(** A missing layerset file gives [skip_nested = true]. *)
Lemma check_layerset_places_missing_file (layerset_path : option string)
    (layerset : string) (p : paths) (w : world) :
  let dir := default (Py.path_join (flex_path p) "layerset") layerset_path in
  fs w !! Py.path_join dir (layerset +:+ ".ini") = None ->
  check_layerset_places layerset_path layerset p w = (Ok true, w).
Proof.
  intros dir Hnone.
  rewrite (check_layerset_places_spec _ _ _ _ ConfigParser.empty); [done |].
  unfold ConfigParser.read. fold dir. by rewrite Hnone.
Qed.

Example check_layerset_places_place_true :
  check_layerset_places None "default" (get_paths "/app")
    (sample_world [("/app/flex-config/layerset/default.ini",
                    "[layerset]
place=true
")])
  = (Ok false,
     sample_world [("/app/flex-config/layerset/default.ini",
                    "[layerset]
place=true
")]).
Proof. vm_compute. reflexivity. Qed.

Example check_layerset_places_no_place_key :
  (check_layerset_places None "default" (get_paths "/app")
     (sample_world [("/app/flex-config/layerset/default.ini",
                     "[layerset]
amenity=true
")])).1
  = Ok true.
Proof. vm_compute. reflexivity. Qed.

(** C2. The claim has [place = false] give [skip_nested = true].  The
    value read from the file is the string ["false"], which [if place:]
    takes as true, so for a layerset file that defines [place=false] the
    function returns [skip_nested = false], as it does for [place=true]. *)
Theorem check_layerset_places_place_false :
  (check_layerset_places None "default" (get_paths "/app")
     (sample_world [("/app/flex-config/layerset/default.ini",
                     "[layerset]
place=false
")])).1
  = Ok false.
Proof. vm_compute. reflexivity. Qed.

(** The same for every non-empty value of [place]. *)
Lemma check_layerset_places_nonempty (layerset_path : option string)
    (layerset : string) (p : paths) (w : world) (config : ConfigParser.config)
    (place : string) :
  let dir := default (Py.path_join (flex_path p) "layerset") layerset_path in
  ConfigParser.read (fs w) (Py.path_join dir (layerset +:+ ".ini")) = Ok config ->
  ConfigParser.getitem config "layerset" "place" = Some place ->
  place <> "" ->
  check_layerset_places layerset_path layerset p w = (Ok false, w).
Proof.
  intros dir Hread Hget Hne.
  rewrite (check_layerset_places_spec _ _ _ _ config Hread), Hget.
  by destruct place.
Qed.

(** ** Readiness poller *)

Section Poller.

Context (ext : externals) (conn_str : option string).

Lemma wait_loop_done (found i : nat) (w : world) :
  required_checks <= found -> wait_loop ext conn_str found i w = (Ok tt, w).
Proof.
  intros H. simp wait_loop.
  destruct (decide (found < required_checks)); [lia | done].
Qed.

Lemma wait_loop_soft_exit (found i : nat) (w : world) :
  found < required_checks -> max_loops < i ->
  wait_loop ext conn_str found i w = (Raise soft_timeout, w).
Proof.
  intros H1 H2. simp wait_loop.
  destruct (decide (found < required_checks)); [| lia]. cbn.
  destruct (decide (max_loops < i)); [done | lia].
Qed.

(** One iteration: sleep, check, count the check if it passed, go on with
    [i + 1].  The test [i > 100] that follows the check is false whenever it
    is reached, because the iteration began with [i <= max_loops]. *)
Lemma wait_loop_step (found i : nat) (w : world) :
  found < required_checks -> i <= max_loops ->
  wait_loop ext conn_str found i w
  = wait_loop ext conn_str
      (if ext_pg_isready ext conn_str (pg_calls w) then found + 1 else found)
      (i + 1) (polled ext conn_str w).
Proof.
  intros H1 H2. rewrite wait_loop_equation_1.
  destruct (decide (found < required_checks)); [| lia]. cbn.
  destruct (decide (max_loops < i)); [lia |]. cbn.
  unfold bind, time_sleep, modify, pg_isready. cbn.
  destruct (decide (100 < i)); [unfold max_loops in *; lia | done].
Qed.

Lemma polls_pg_calls (n : nat) (w : world) :
  pg_calls (polls ext conn_str n w) = pg_calls w + n.
Proof.
  revert w. induction n as [| n IH]; intros w; cbn; [lia |].
  rewrite IH. cbn. lia.
Qed.

(** [n] iterations add [n] checks and [n] sleeps of five seconds. *)
Lemma polls_trace (n : nat) (w : world) :
  exists new,
    trace (polls ext conn_str n w) = (new ++ trace w)%list
    /\ length (check_results new) = n
    /\ sleep_seconds new = replicate n 5.
Proof.
  revert w. induction n as [| n IH]; intros w; cbn [polls].
  - by exists [].
  - destruct (IH (polled ext conn_str w)) as (new & Htr & Hchk & Hsl).
    exists (new ++ [EvPgIsReady (ext_pg_isready ext conn_str (pg_calls w));
                    EvSleep 5])%list.
    split; [| split].
    + rewrite Htr. cbn. by rewrite <- app_assoc.
    + unfold check_results in *. rewrite omap_app, length_app, Hchk. cbn. lia.
    + unfold sleep_seconds in *. rewrite omap_app, Hsl.
      symmetry. apply replicate_S_end.
Qed.

(** Failed checks leave [found] as it is. *)
Lemma wait_loop_failures (n found i : nat) (w : world) :
  found < required_checks -> i + n <= max_loops + 1 ->
  (forall k, k < n -> ext_pg_isready ext conn_str (pg_calls w + k) = false) ->
  wait_loop ext conn_str found i w
  = wait_loop ext conn_str found (i + n) (polls ext conn_str n w).
Proof.
  revert i w. induction n as [| n IH]; intros i w Hfound Hi Hfail.
  - by rewrite Nat.add_0_r.
  - rewrite wait_loop_step by lia.
    assert (Hfirst : ext_pg_isready ext conn_str (pg_calls w) = false)
      by (rewrite <- (Hfail 0) by lia; f_equal; lia).
    rewrite Hfirst.
    rewrite (IH (i + 1) (polled ext conn_str w)); try lia.
    + cbn [polls]. f_equal. lia.
    + intros k Hk. cbn [polled pg_calls].
      rewrite <- (Hfail (S k)) by lia. f_equal. lia.
Qed.

Lemma count_ready_add (c n m : nat) :
  count_ready ext conn_str c (n + m)
  = count_ready ext conn_str c n + count_ready ext conn_str (c + n) m.
Proof.
  revert c. induction n as [| n IH]; intros c; cbn.
  - by rewrite Nat.add_0_r.
  - rewrite IH. replace (S c + n) with (c + S n) by lia. lia.
Qed.

Lemma count_ready_one (c n k : nat) :
  k < n -> ext_pg_isready ext conn_str (c + k) = true ->
  1 <= count_ready ext conn_str c n.
Proof.
  intros Hk Hready. replace n with (k + S (n - S k)) by lia.
  rewrite count_ready_add. cbn. rewrite Hready. lia.
Qed.

Lemma count_ready_two (c n j k : nat) :
  j < k -> k < n ->
  ext_pg_isready ext conn_str (c + j) = true ->
  ext_pg_isready ext conn_str (c + k) = true ->
  2 <= count_ready ext conn_str c n.
Proof.
  intros Hjk Hk Hj Hk'. replace n with (S j + (n - S j)) by lia.
  rewrite count_ready_add.
  pose proof (count_ready_one c (S j) j ltac:(lia) Hj).
  pose proof (count_ready_one (c + S j) (n - S j) (k - S j) ltac:(lia)) as H2.
  replace (c + S j + (k - S j)) with (c + k) in H2 by lia.
  specialize (H2 Hk'). lia.
Qed.

(** When the checks still to come within the bound hold enough successes,
    wherever they are, the loop ends normally. *)
Lemma wait_loop_enough_successes (n found i : nat) (w : world) :
  i + n = max_loops + 1 ->
  required_checks <= found + count_ready ext conn_str (pg_calls w) n ->
  (wait_loop ext conn_str found i w).1 = Ok tt.
Proof.
  revert found i w. induction n as [| n IH]; intros found i w Hi Hcount.
  - cbn in Hcount. by rewrite wait_loop_done by lia.
  - destruct (decide (found < required_checks)) as [Hlt | Hge];
      [| by rewrite wait_loop_done by lia].
    rewrite wait_loop_step by lia. apply IH; [lia |].
    cbn in Hcount. cbn [polled pg_calls].
    destruct (ext_pg_isready ext conn_str (pg_calls w)); lia.
Qed.

(** No execution of the loop ends in the second exit. *)
Lemma wait_loop_never_hard (n found i : nat) (w : world) :
  max_loops + 1 - i <= n ->
  (wait_loop ext conn_str found i w).1 <> Raise hard_timeout.
Proof.
  revert found i w. induction n as [| n IH]; intros found i w Hn;
    (destruct (decide (found < required_checks)) as [Hlt | Hge];
     [| by rewrite wait_loop_done by lia]).
  - by rewrite wait_loop_soft_exit by lia.
  - destruct (decide (max_loops < i)) as [Hgt | Hle];
      [by rewrite wait_loop_soft_exit by lia |].
    rewrite wait_loop_step by lia. apply IH. lia.
Qed.

End Poller.

(** C3, as amended.  When the first [N] checks fail ([N] below the bound of
    30 iterations) and the next two succeed, [wait_for_postgres] returns
    normally after exactly [N + 2] checks.  Each iteration sleeps before it
    checks, so the sleeps of five seconds number [N + 2] as well. *)
Theorem wait_for_postgres_after_failures (ext : externals)
    (conn_str : option string) (w : world) (N : nat) :
  N < max_loops ->
  (forall k, k < N -> ext_pg_isready ext conn_str (pg_calls w + k) = false) ->
  ext_pg_isready ext conn_str (pg_calls w + N) = true ->
  ext_pg_isready ext conn_str (pg_calls w + N + 1) = true ->
  exists w' new,
    wait_for_postgres ext conn_str w = (Ok tt, w')
    /\ trace w' = (new ++ trace w)%list
    /\ length (check_results new) = N + 2
    /\ sleep_seconds new = replicate (N + 2) 5.
Proof.
  intros HN Hfail Hfirst Hsecond. unfold wait_for_postgres.
  rewrite (wait_loop_failures ext conn_str N 0 0 w)
    by (unfold required_checks; lia || done).
  rewrite wait_loop_step by (unfold required_checks; lia).
  rewrite polls_pg_calls, Hfirst.
  rewrite wait_loop_step by (unfold required_checks; lia).
  cbn [polled pg_calls]. rewrite polls_pg_calls.
  replace (S (pg_calls w + N)) with (pg_calls w + N + 1) by lia.
  rewrite Hsecond, wait_loop_done by done.
  destruct (polls_trace ext conn_str N w) as (new & Htr & Hchk & Hsl).
  eexists. exists ([EvPgIsReady true; EvSleep 5; EvPgIsReady true; EvSleep 5]
                   ++ new)%list.
  split; [reflexivity |]. split; [| split].
  - cbn. rewrite Htr, !polls_pg_calls.
    replace (S (pg_calls w + N)) with (pg_calls w + N + 1) by lia.
    by rewrite Hfirst, Hsecond.
  - unfold check_results in *. rewrite omap_app, length_app, Hchk. cbn. lia.
  - unfold sleep_seconds in *. rewrite omap_app, Hsl.
    replace (N + 2) with (2 + N) by lia. reflexivity.
Qed.

Lemma wait_for_postgres_after_failures_witness :
  let ext := sample_externals "2021-01-13" true (fun n => (3 <=? n)%nat) in
  exists w' new,
    wait_for_postgres ext None (sample_world []) = (Ok tt, w')
    /\ trace w' = (new ++ [])%list
    /\ length (check_results new) = 3 + 2
    /\ sleep_seconds new = replicate (3 + 2) 5.
Proof.
  intros ext.
  apply (wait_for_postgres_after_failures ext None (sample_world []) 3).
  - unfold max_loops. lia.
  - intros k Hk. destruct k as [| [| [| k]]]; [reflexivity .. | lia].
  - reflexivity.
  - reflexivity.
Defined.

(** C3, as stated, fails on the sleeps: with [N = 0] (the first two checks
    succeed) the poller returns after [0 + 2] checks and has slept twice,
    not [0 + 1] times. *)
Lemma wait_for_postgres_sleeps_counterexample :
  let ext := sample_externals "2021-01-13" true (fun _ => true) in
  let run := wait_for_postgres ext None (sample_world []) in
  run.1 = Ok tt
  /\ length (check_results (trace run.2)) = 0 + 2
  /\ sleep_seconds (trace run.2) = [5; 5]
  /\ length (sleep_seconds (trace run.2)) <> 0 + 1.
Proof. vm_compute. repeat split; discriminate. Qed.

(** C7. A passed check adds one to [found] and a failed check leaves it
    as it is, iteration after iteration; so two passed checks among the
    iterations [0 .. max_loops], consecutive or not, end the poller
    normally. *)
Theorem wait_for_postgres_lenient (ext : externals) (conn_str : option string)
    (w : world) :
  (forall found i w0,
      found < required_checks -> i <= max_loops ->
      wait_loop ext conn_str found i w0
      = wait_loop ext conn_str
          (if ext_pg_isready ext conn_str (pg_calls w0) then found + 1 else found)
          (i + 1) (polled ext conn_str w0))
  /\ (forall j k,
      j < k -> k <= max_loops ->
      ext_pg_isready ext conn_str (pg_calls w + j) = true ->
      ext_pg_isready ext conn_str (pg_calls w + k) = true ->
      (wait_for_postgres ext conn_str w).1 = Ok tt).
Proof.
  split.
  - intros found i w0. apply wait_loop_step.
  - intros j k Hjk Hk Hj Hk'. unfold wait_for_postgres.
    apply (wait_loop_enough_successes ext conn_str (max_loops + 1)); [done |].
    apply (count_ready_two ext conn_str (pg_calls w) (max_loops + 1) j k);
      (lia || done).
Qed.

Lemma wait_for_postgres_lenient_witness :
  let ext := sample_externals "2021-01-13" true
               (fun n => (n =? 1)%nat || (n =? 4)%nat) in
  (wait_for_postgres ext None (sample_world [])).1 = Ok tt.
Proof.
  intros ext.
  apply (proj2 (wait_for_postgres_lenient ext None (sample_world [])) 1 4).
  - lia.
  - unfold max_loops. lia.
  - reflexivity.
  - reflexivity.
Defined.

Example wait_for_postgres_non_consecutive :
  let ext := sample_externals "2021-01-13" true
               (fun n => (n =? 1)%nat || (n =? 4)%nat) in
  check_results (trace (wait_for_postgres ext None (sample_world [])).2)
  = [true; false; false; true; false].
Proof. vm_compute. reflexivity. Qed.

(** C8. When every check fails, the poller exits with the message of the
    first bound, at the start of the iteration with [i = 31], after 31
    checks and as many sleeps.  Whatever the checks answer, the loop never
    ends in the exit guarded by [i > 100]. *)
Theorem wait_for_postgres_always_failing (ext : externals)
    (conn_str : option string) (w : world) :
  ((forall k, ext_pg_isready ext conn_str k = false) ->
   exists w' new,
     wait_for_postgres ext conn_str w = (Raise soft_timeout, w')
     /\ trace w' = (new ++ trace w)%list
     /\ length (check_results new) = max_loops + 1
     /\ sleep_seconds new = replicate (max_loops + 1) 5)
  /\ (forall found i w0,
      (wait_loop ext conn_str found i w0).1 <> Raise hard_timeout)
  /\ (wait_for_postgres ext conn_str w).1 <> Raise hard_timeout.
Proof.
  split; [| split].
  - intros Hfail. unfold wait_for_postgres.
    rewrite (wait_loop_failures ext conn_str (max_loops + 1) 0 0 w)
      by (unfold required_checks; lia || auto).
    rewrite wait_loop_soft_exit by (unfold required_checks, max_loops; lia).
    destruct (polls_trace ext conn_str (max_loops + 1) w) as (new & H).
    eauto.
  - intros found i w0.
    apply (wait_loop_never_hard ext conn_str (max_loops + 1 - i)). lia.
  - apply (wait_loop_never_hard ext conn_str (max_loops + 1)). lia.
Qed.

Lemma wait_for_postgres_always_failing_witness :
  let ext := sample_externals "2021-01-13" true (fun _ => false) in
  exists w' new,
    wait_for_postgres ext None (sample_world []) = (Raise soft_timeout, w')
    /\ trace w' = (new ++ [])%list
    /\ length (check_results new) = 31
    /\ sleep_seconds new = replicate 31 5.
Proof.
  intros ext.
  apply (proj1 (wait_for_postgres_always_failing ext None (sample_world []))).
  intros k. reflexivity.
Defined.

(** ** Events of the pipeline *)

Section Traces.

Context (ext : externals).

Lemma emits_silent {A} (good : event -> bool) (m : M A) :
  (forall w, trace (m w).2 = trace w) -> emits good m.
Proof.
  intros Hm w r w' Hrun. exists []. split; [| constructor].
  specialize (Hm w). rewrite Hrun in Hm. exact Hm.
Qed.

Lemma emits_bind {A B} (good : event -> bool) (m : M A) (k : A -> M B) :
  emits good m -> (forall a, emits good (k a)) -> emits good (bind m k).
Proof.
  intros Hm Hk w r w' Hrun. unfold bind in Hrun.
  destruct (m w) as [[a | e] w1] eqn:Hmw.
  - destruct (Hm _ _ _ Hmw) as (new1 & Htr1 & Hall1).
    destruct (Hk a _ _ _ Hrun) as (new2 & Htr2 & Hall2).
    exists (new2 ++ new1)%list. split.
    + by rewrite Htr2, Htr1, app_assoc.
    + by apply Forall_app.
  - inversion Hrun; subst. eauto.
Qed.

Lemma emits_ret {A} (good : event -> bool) (a : A) : emits good (ret a).
Proof. by apply emits_silent. Qed.

Lemma emits_raise {A} (good : event -> bool) (e : exn) :
  emits good (raise (A := A) e).
Proof. by apply emits_silent. Qed.

Lemma emits_lift {A} (good : event -> bool) (r : result A) : emits good (lift r).
Proof. by apply emits_silent. Qed.

Lemma emits_os_path_exists (good : event -> bool) (p : string) :
  emits good (os_path_exists p).
Proof. by apply emits_silent. Qed.

Lemma emits_get_today (good : event -> bool) : emits good (get_today ext).
Proof. by apply emits_silent. Qed.

Lemma emits_os_environ_set (good : event -> bool) (k v : string) :
  emits good (os_environ_set k v).
Proof. by apply emits_silent. Qed.

Lemma emits_shutil_copy2 (good : event -> bool) (src dst : string) :
  emits good (shutil_copy2 src dst).
Proof.
  apply emits_silent. intros w. unfold shutil_copy2.
  destruct (fs w !! src); [destruct (bool_decide (src = dst)) |]; done.
Qed.

Lemma emits_os_remove (good : event -> bool) (p : string) :
  emits good (os_remove p).
Proof.
  apply emits_silent. intros w. unfold os_remove. by destruct (fs w !! p).
Qed.

Lemma emits_one {A} (good : event -> bool) (m : M A) (e : world -> event) :
  (forall w, good (e w)) ->
  (forall w, trace (m w).2 = e w :: trace w) -> emits good m.
Proof.
  intros Hgood Hm w r w' Hrun. exists [e w]. split.
  - specialize (Hm w). by rewrite Hrun in Hm.
  - repeat constructor. apply Hgood.
Qed.

Lemma emits_run_wget (good : event -> bool) (url out : string) :
  (forall ok, good (EvWget url out ok)) -> emits good (run_wget ext url out).
Proof.
  intros Hgood.
  apply (emits_one good _
           (fun w => EvWget url out (ext_wget ext url out (fs w)).1)); [done |].
  intros w. unfold run_wget. by destruct (ext_wget ext url out (fs w)) as [[] ?].
Qed.

Lemma emits_db_call (good : event -> bool) (op : db_op) :
  (forall ok, good (EvDb op ok)) -> emits good (db_call ext op).
Proof.
  intros Hgood. apply (emits_one good _ (fun _ => EvDb op (ext_db ext op))); [done |].
  intros w. unfold db_call. by destruct (ext_db ext op).
Qed.

Lemma emits_run_osm2pgsql (good : event -> bool) (cmd : string) (p : paths) :
  (forall argv cwd ok, good (EvOsm2pgsql argv cwd ok)) ->
  emits good (run_osm2pgsql ext cmd p).
Proof.
  intros Hgood.
  apply (emits_one good _
           (fun _ => EvOsm2pgsql (Py.split cmd) (flex_path p)
                       (ext_osm2pgsql ext (Py.split cmd) (flex_path p))));
    [done |].
  intros w. unfold run_osm2pgsql.
  by destruct (ext_osm2pgsql ext (Py.split cmd) (flex_path p)).
Qed.

Lemma emits_verify_checksum (good : event -> bool) (md5_file : string) (p : paths) :
  (forall ok, good (EvMd5sum md5_file (out_path p) ok)) ->
  emits good (verify_checksum ext md5_file p).
Proof.
  intros Hgood.
  apply (emits_one good _
           (fun w => EvMd5sum md5_file (out_path p)
                       (ext_md5sum ext md5_file (out_path p) (fs w)))); [done |].
  intros w. unfold verify_checksum.
  by destruct (ext_md5sum ext md5_file (out_path p) (fs w)).
Qed.

Lemma emits_check_layerset_places (good : event -> bool)
    (layerset_path : option string) (layerset : string) (p : paths) :
  emits good (check_layerset_places layerset_path layerset p).
Proof.
  apply emits_silent. intros w. unfold check_layerset_places.
  repeat case_match; done.
Qed.

Lemma emits_wait_loop (good : event -> bool) (conn_str : option string)
    (n found i : nat) :
  (forall secs, good (EvSleep secs)) -> (forall r, good (EvPgIsReady r)) ->
  max_loops + 1 - i <= n ->
  emits good (wait_loop ext conn_str found i).
Proof.
  intros Hsleep Hcheck. revert found i.
  induction n as [| n IH]; intros found i Hn w r w' Hrun;
    (destruct (decide (found < required_checks)) as [Hlt | Hge];
     [| rewrite wait_loop_done in Hrun by lia; inversion Hrun; subst;
        exists []; split; [done | constructor]]).
  - rewrite wait_loop_soft_exit in Hrun by lia. inversion Hrun; subst.
    exists []. split; [done | constructor].
  - destruct (decide (max_loops < i)) as [Hgt | Hle].
    + rewrite wait_loop_soft_exit in Hrun by lia. inversion Hrun; subst.
      exists []. split; [done | constructor].
    + rewrite wait_loop_step in Hrun by lia.
      destruct (IH _ (i + 1) ltac:(lia) _ _ _ Hrun) as (new & Htr & Hall).
      exists (new ++ [EvPgIsReady (ext_pg_isready ext conn_str (pg_calls w));
                      EvSleep 5])%list.
      split; [by rewrite Htr, <- app_assoc |].
      apply Forall_app. split; [done |]. repeat constructor; auto.
Qed.

Ltac emits_auto :=
  repeat first
    [ apply emits_bind; [| intros ?]
    | apply emits_ret | apply emits_raise | apply emits_lift
    | apply emits_os_path_exists | apply emits_get_today
    | apply emits_os_environ_set | apply emits_shutil_copy2
    | apply emits_os_remove
    | apply emits_run_wget; intros; reflexivity
    | apply emits_db_call; intros; reflexivity
    | apply emits_check_layerset_places
    | match goal with
      | |- emits _ (if ?b then _ else _) => destruct b
      | |- emits _ (match ?x with _ => _ end) => destruct x
      end ].

Lemma emits_set_env_vars (good : event -> bool) (region subregion : option string)
    (srid : string) (language : option string) (pgosm_date layerset : string)
    (layerset_path conn_str : option string) :
  emits good (set_env_vars ext region subregion srid language pgosm_date
                layerset layerset_path conn_str).
Proof. unfold set_env_vars. emits_auto. Qed.

Lemma emits_pbf_download_needed (good : event -> bool)
    (pbf_dated md5_dated pgosm_date : string) :
  emits good (pbf_download_needed ext pbf_dated md5_dated pgosm_date).
Proof. unfold pbf_download_needed. emits_auto. Qed.

Lemma emits_download_data (region : string) (subregion : option string)
    (pbf_file md5_file : string) :
  emits quiet (download_data ext region subregion pbf_file md5_file).
Proof. unfold download_data. emits_auto. Qed.

Lemma emits_archive_data (good : event -> bool)
    (pbf_file md5_file pbf_dated md5_dated : string) :
  emits good (archive_data pbf_file md5_file pbf_dated md5_dated).
Proof. unfold archive_data. emits_auto. Qed.

Lemma emits_unarchive_data (good : event -> bool)
    (pbf_file md5_file pbf_dated md5_dated : string) :
  emits good (unarchive_data pbf_file md5_file pbf_dated md5_dated).
Proof. unfold unarchive_data. emits_auto. Qed.

Lemma emits_remove_latest_files (good : event -> bool) (region : string)
    (subregion : option string) (p : paths) :
  emits good (remove_latest_files region subregion p).
Proof. unfold remove_latest_files. emits_auto. Qed.

Lemma emits_run_post_processing (p : paths) (skip_nested : bool) :
  emits (fun e => negb (is_checksum e)) (run_post_processing ext p skip_nested).
Proof. unfold run_post_processing. emits_auto. Qed.

Lemma emits_wait_for_postgres (conn_str : option string) :
  emits (fun e => negb (is_checksum e)) (wait_for_postgres ext conn_str).
Proof.
  unfold wait_for_postgres.
  by apply (emits_wait_loop _ _ (max_loops + 1)); [..| lia].
Qed.

(** *** Checksum failures *)

Lemma quiet_not_failed (new : list event) :
  Forall (fun e => quiet e) new -> ~ Exists (fun e => is_failed_checksum e) new.
Proof.
  intros Hall Hex. apply Exists_exists in Hex as (e & Hin & Hfailed).
  rewrite Forall_forall in Hall. specialize (Hall e Hin).
  by destruct e as [| | | ? ? [] | |].
Qed.

Lemma not_checksum_not_failed (new : list event) :
  Forall (fun e => negb (is_checksum e)) new ->
  ~ Exists (fun e => is_failed_checksum e) new.
Proof.
  intros Hall Hex. apply Exists_exists in Hex as (e & Hin & Hfailed).
  rewrite Forall_forall in Hall. specialize (Hall e Hin).
  by destruct e as [| | | ? ? [] | |].
Qed.

Lemma quiet_not_import (new : list event) :
  Forall (fun e => quiet e) new -> Forall (fun e => negb (is_import e)) new.
Proof.
  intros Hall. eapply Forall_impl; [exact Hall |]. intros e. unfold quiet.
  by destruct (is_checksum e), (is_import e).
Qed.

Lemma count_events_none (kind : event -> bool) (tr : list event) :
  Forall (fun e => negb (kind e)) tr -> count_events kind tr = 0.
Proof.
  unfold count_events. induction 1 as [| e tr He _ IH]; [done |].
  rewrite filter_cons_False; [done |].
  destruct (kind e); [destruct He | intros []].
Qed.

Lemma guards_of_emits {A} (m : M A) : emits quiet m -> guards_checksum m.
Proof.
  intros Hm w r w' Hrun. destruct (Hm _ _ _ Hrun) as (new & Htr & Hall).
  exists new. split; [done |]. split; [by apply quiet_not_import |].
  intros Hex. by destruct (quiet_not_failed new).
Qed.

Lemma guards_bind_pre {A B} (m : M A) (k : A -> M B) :
  emits quiet m -> (forall a, guards_checksum (k a)) ->
  guards_checksum (bind m k).
Proof.
  intros Hm Hk w r w' Hrun. unfold bind in Hrun.
  destruct (m w) as [[a | e] w1] eqn:Hmw.
  - destruct (Hm _ _ _ Hmw) as (new1 & Htr1 & Hall1).
    destruct (Hk a _ _ _ Hrun) as (new2 & Htr2 & Himp2 & Hfail2).
    exists (new2 ++ new1)%list. split; [by rewrite Htr2, Htr1, app_assoc |].
    split; [apply Forall_app; split; [done | by apply quiet_not_import] |].
    intros [Hex | Hex]%Exists_app; [auto | by destruct (quiet_not_failed new1)].
  - inversion Hrun; subst.
    destruct (Hm _ _ _ Hmw) as (new1 & Htr1 & Hall1).
    exists new1. split; [done |]. split; [by apply quiet_not_import | done].
Qed.

Lemma guards_bind_post {A B} (m : M A) (k : A -> M B) :
  guards_checksum m -> (forall a, emits quiet (k a)) ->
  guards_checksum (bind m k).
Proof.
  intros Hm Hk w r w' Hrun. unfold bind in Hrun.
  destruct (m w) as [[a | e] w1] eqn:Hmw.
  - destruct (Hm _ _ _ Hmw) as (new1 & Htr1 & Himp1 & Hfail1).
    destruct (Hk a _ _ _ Hrun) as (new2 & Htr2 & Hall2).
    exists (new2 ++ new1)%list. split; [by rewrite Htr2, Htr1, app_assoc |].
    split; [apply Forall_app; split; [by apply quiet_not_import | done] |].
    intros [Hex | Hex]%Exists_app;
      [by destruct (quiet_not_failed new2) | by destruct (Hfail1 Hex)].
  - inversion Hrun; subst.
    destruct (Hm _ _ _ Hmw) as (new1 & Htr1 & Himp1 & Hfail1).
    exists new1. done.
Qed.

(** [verify_checksum] raises exactly when [md5sum -c] fails. *)
Lemma guards_verify_checksum (md5_file : string) (p : paths) :
  guards_checksum (verify_checksum ext md5_file p).
Proof.
  intros w r w' Hrun. unfold verify_checksum in Hrun.
  exists [EvMd5sum md5_file (out_path p)
            (ext_md5sum ext md5_file (out_path p) (fs w))].
  destruct (ext_md5sum ext md5_file (out_path p) (fs w));
    inversion Hrun; subst; (split; [done |]); (split; [by repeat constructor |]).
  - intros Hex. apply Exists_cons in Hex as [[] | Hex]. inversion Hex.
  - done.
Qed.

Lemma guards_prepare_data (region : string) (subregion : option string)
    (pgosm_date : string) (p : paths) :
  guards_checksum (prepare_data ext region subregion pgosm_date p).
Proof.
  unfold prepare_data.
  apply guards_bind_pre; [apply emits_pbf_download_needed | intros needed].
  apply guards_bind_pre.
  - destruct needed.
    + apply emits_bind; [apply emits_download_data | intros _].
      apply emits_archive_data.
    + apply emits_unarchive_data.
  - intros _. apply guards_bind_post; [apply guards_verify_checksum |].
    intros _. apply emits_ret.
Qed.

Lemma aborts_bind_pre {A B} (m : M A) (k : A -> M B) :
  emits quiet m -> (forall a, aborts_before_import (k a)) ->
  aborts_before_import (bind m k).
Proof.
  intros Hm Hk w r w' Hrun. unfold bind in Hrun.
  destruct (m w) as [[a | e] w1] eqn:Hmw;
    destruct (Hm _ _ _ Hmw) as (new1 & Htr1 & Hall1).
  - destruct (Hk a _ _ _ Hrun) as (new2 & Htr2 & Hfail2).
    exists (new2 ++ new1)%list. split; [by rewrite Htr2, Htr1, app_assoc |].
    intros [Hex | Hex]%Exists_app; [| by destruct (quiet_not_failed new1)].
    destruct (Hfail2 Hex) as [Hr Hcount]. split; [done |].
    unfold count_events in *. rewrite filter_app, length_app, Hcount.
    by apply (count_events_none is_import), quiet_not_import.
  - inversion Hrun; subst. exists new1. split; [done |].
    intros Hex. by destruct (quiet_not_failed new1).
Qed.

Lemma aborts_bind_guarded {A B} (m : M A) (k : A -> M B) :
  guards_checksum m ->
  (forall a, emits (fun e => negb (is_checksum e)) (k a)) ->
  aborts_before_import (bind m k).
Proof.
  intros Hm Hk w r w' Hrun. unfold bind in Hrun.
  destruct (m w) as [[a | e] w1] eqn:Hmw;
    destruct (Hm _ _ _ Hmw) as (new1 & Htr1 & Himp1 & Hfail1).
  - destruct (Hk a _ _ _ Hrun) as (new2 & Htr2 & Hall2).
    exists (new2 ++ new1)%list. split; [by rewrite Htr2, Htr1, app_assoc |].
    intros [Hex | Hex]%Exists_app;
      [by destruct (not_checksum_not_failed new2) | by destruct (Hfail1 Hex)].
  - inversion Hrun; subst. exists new1. split; [done |].
    intros _. split; [done | by apply count_events_none].
Qed.

End Traces.

Ltac emits_steps :=
  repeat first
    [ apply emits_bind; [| intros ?]
    | apply emits_ret | apply emits_raise | apply emits_lift
    | apply emits_os_path_exists | apply emits_get_today
    | apply emits_os_environ_set | apply emits_shutil_copy2
    | apply emits_os_remove
    | apply emits_run_wget; intros; reflexivity
    | apply emits_db_call; intros; reflexivity
    | apply emits_check_layerset_places
    | match goal with
      | |- emits _ (if ?b then _ else _) => destruct b
      | |- emits _ (match ?x with _ => _ end) => destruct x
      end ].

(** C5. In every run of [run_pgosm_flex], from any world: if one of the
    events of the run is a checksum verification that failed, the run ends
    by raising and its events contain no invocation of the import
    command. *)
Theorem checksum_failure_aborts_before_import (ext : externals)
    (layerset : string) (layerset_path : option string) (ram : nat)
    (region subregion : option string) (srid pgosm_date : string)
    (language : option string) (schema_name : string)
    (skip_nested data_only skip_dump debug : bool) (basepath : string)
    (input_file conn_str : option string) (w : world) :
  let run :=
    run_pgosm_flex ext layerset layerset_path ram region subregion srid
      pgosm_date language schema_name skip_nested data_only skip_dump debug
      basepath input_file conn_str w in
  exists new,
    trace run.2 = (new ++ trace w)%list
    /\ (Exists (fun e => is_failed_checksum e) new ->
        is_raise run.1 /\ count_events is_import new = 0).
Proof.
  intros run.
  assert (Habort : aborts_before_import
            (run_pgosm_flex ext layerset layerset_path ram region subregion
               srid pgosm_date language schema_name skip_nested data_only
               skip_dump debug basepath input_file conn_str)).
  { unfold run_pgosm_flex.
    apply aborts_bind_pre; [destruct input_file, region; emits_steps |].
    intros source.
    apply aborts_bind_pre; [apply emits_set_env_vars |]. intros _.
    apply aborts_bind_guarded.
    - destruct source.
      + apply guards_bind_post; [apply guards_prepare_data |].
        intros _. apply emits_lift.
      + apply guards_of_emits, emits_lift.
    - intros command.
      apply emits_bind; [apply emits_wait_for_postgres | intros _].
      apply emits_bind; [by apply emits_db_call | intros _].
      apply emits_bind; [by apply emits_run_osm2pgsql | intros _].
      apply emits_bind; [destruct skip_nested; emits_steps | intros skip].
      apply emits_bind; [apply emits_run_post_processing | intros _].
      apply emits_bind.
      { destruct source; [| apply emits_ret].
        apply emits_bind; [apply emits_remove_latest_files | intros _].
        apply emits_lift. }
      intros export_filename. emits_steps. }
  apply (Habort w run.1 run.2). apply surjective_pairing.
Qed.

Lemma checksum_failure_aborts_before_import_witness :
  let ext := sample_externals "2021-01-13" false (fun _ => true) in
  let run :=
    run_pgosm_flex ext "default" None 4 (Some "north-america/us")
      (Some "district-of-columbia") "3857" "2021-01-13" None "osm"
      false false false false "/app" None None (sample_world []) in
  Exists (fun e => is_failed_checksum e) (trace run.2)
  /\ is_raise run.1 /\ count_events is_import (trace run.2) = 0.
Proof.
  intros ext run.
  destruct (checksum_failure_aborts_before_import ext "default" None 4
              (Some "north-america/us") (Some "district-of-columbia") "3857"
              "2021-01-13" None "osm" false false false false "/app" None None
              (sample_world [])) as (new & Htr & Habort).
  fold ext in Htr. fold run in Htr, Habort.
  rewrite app_nil_r in Htr. rewrite <- Htr in Habort.
  assert (Hfailed : Exists (fun e => is_failed_checksum e) (trace run.2)).
  { vm_compute. apply Exists_cons_hd. exact I. }
  split; [exact Hfailed | exact (Habort Hfailed)].
Defined.

(** ** A complete run *)

(** The default region on the run date, nothing cached, the layerset file
    enabling [place]: two downloads, one verification, one import called
    from the flex-config directory, nested polygons computed, the logical
    pair removed, the dated pair kept, and the dump named after region,
    subregion, layerset and date. *)
Example run_pgosm_flex_default_region :
  let ext := sample_externals "2021-01-13" true (fun _ => true) in
  let ini := "/app/flex-config/layerset/default.ini" in
  let run :=
    run_pgosm_flex ext "default" None 4 (Some "north-america/us")
      (Some "district-of-columbia") "3857" "2021-01-13" None "osm"
      false false false false "/app" None None
      (sample_world [(ini, "[layerset]
place=true
")]) in
  run.1 = Ok tt
  /\ rev (trace run.2)
     = [EvWget "https://download.geofabrik.de/north-america/us/district-of-columbia-latest.osm.pbf"
          "/app/output/district-of-columbia-latest.osm.pbf" true;
        EvWget "https://download.geofabrik.de/north-america/us/district-of-columbia-latest.osm.pbf.md5"
          "/app/output/district-of-columbia-latest.osm.pbf.md5" true;
        EvMd5sum "/app/output/district-of-columbia-latest.osm.pbf.md5"
          "/app/output" true;
        EvSleep 5; EvPgIsReady true; EvSleep 5; EvPgIsReady true;
        EvDb (PreparePgosmDb false) true;
        EvOsm2pgsql ["osm2pgsql"; "--output=flex";
                     "district-of-columbia-latest.osm.pbf"]
          "/app/flex-config" true;
        EvDb PgosmAfterImport true;
        EvDb PgosmNestedAdminPolygons true;
        EvDb (RunPgDump
                "pgosm-flex-north-america-us-district-of-columbia-default-2021-01-13.sql"
                "/app/output" false "osm") true]
  /\ dom (fs run.2)
     = {[ ini; "/app/output/district-of-columbia-2021-01-13.osm.pbf";
          "/app/output/district-of-columbia-2021-01-13.osm.pbf.md5" ]}.
Proof. vm_compute. repeat split. Qed.

(** * Further properties *)

(** ** Paths *)

Lemma last_char_app (s t : string) :
  t <> "" -> last_char (s +:+ t) = last_char t.
Proof.
  intros Ht. induction s as [| c s IH]; [done |].
  change (String c s +:+ t) with (String c (s +:+ t)).
  cbn [last_char]. rewrite IH.
  destruct (s +:+ t) eqn:E; [| done].
  destruct s; [| discriminate]. by destruct t.
Qed.

Lemma path_join_suffix (a b : string) : exists pre, Py.path_join a b = pre +:+ b.
Proof.
  unfold Py.path_join. destruct (Py.startswith b "/"); [by exists "" |].
  destruct (negb (Py.truthy a) || Py.endswith a "/"); [by exists a |].
  exists (a +:+ "/"). clear. induction a as [| c a IH]; [done |].
  change (String c (a +:+ "/" +:+ b) = String c ((a +:+ "/") +:+ b)).
  by rewrite IH.
Qed.

Lemma string_app_assoc (s t u : string) : (s +:+ t) +:+ u = s +:+ t +:+ u.
Proof.
  induction s as [| c s IH]; [done |].
  change (String c ((s +:+ t) +:+ u) = String c (s +:+ t +:+ u)).
  by rewrite IH.
Qed.

Lemma logical_pbf_last (region : string) (subregion : option string) (p : paths) :
  last_char (logical_pbf region subregion p) = Some "f"%char.
Proof.
  unfold logical_pbf.
  destruct (path_join_suffix (out_path p) (get_region_filename region subregion))
    as [pre ->].
  unfold get_region_filename.
  destruct subregion as [sub |]; rewrite <- string_app_assoc;
    by rewrite last_char_app.
Qed.


(** The logical payload is never the dated checksum file, whatever the
    date. *)
Lemma logical_pbf_not_dated_md5 (region : string) (subregion : option string)
    (pgosm_date : string) (p : paths) :
  logical_pbf region subregion p
  <> dated_pbf region subregion pgosm_date p +:+ ".md5".
Proof.
  intros H. apply (f_equal last_char) in H.
  rewrite logical_pbf_last, last_char_app in H by done. discriminate.
Qed.

(** ** Download decision, function by function *)

Section DownloadDecision.

Context (ext : externals) (pbf_dated md5_dated pgosm_date : string) (w : world).

Lemma pbf_download_needed_frame (r : result bool) (w' : world) :
  pbf_download_needed ext pbf_dated md5_dated pgosm_date w = (r, w') -> w' = w.
Proof.
  unfold pbf_download_needed, bind, os_path_exists, get_today, ret, raise. cbn.
  destruct (fs w !! pbf_dated); cbn;
    destruct (fs w !! md5_dated); cbn;
    destruct (bool_decide (pgosm_date = ext_today ext)); cbn;
    intros H; by inversion H.
Qed.

Lemma pbf_download_needed_hit :
  is_Some (fs w !! pbf_dated) -> is_Some (fs w !! md5_dated) ->
  pbf_download_needed ext pbf_dated md5_dated pgosm_date w = (Ok false, w).
Proof.
  unfold pbf_download_needed, bind, os_path_exists, ret.
  intros [cp Hp] [cm Hm]. cbn. rewrite Hp. cbn. by rewrite Hm.
Qed.

Lemma pbf_download_needed_today :
  fs w !! pbf_dated = None \/ fs w !! md5_dated = None ->
  pgosm_date = ext_today ext ->
  pbf_download_needed ext pbf_dated md5_dated pgosm_date w = (Ok true, w).
Proof.
  unfold pbf_download_needed, bind, os_path_exists, get_today, ret, raise.
  intros Hmissing Htoday. cbn.
  destruct (fs w !! pbf_dated); cbn;
    destruct (fs w !! md5_dated); cbn;
    rewrite ?bool_decide_eq_true_2 by done; try done.
  by destruct Hmissing.
Qed.

Lemma pbf_download_needed_historical :
  fs w !! pbf_dated = None \/ fs w !! md5_dated = None ->
  pgosm_date <> ext_today ext ->
  exists msg,
    pbf_download_needed ext pbf_dated md5_dated pgosm_date w
    = (Raise (FileNotFoundError msg), w).
Proof.
  unfold pbf_download_needed, bind, os_path_exists, get_today, ret, raise.
  intros Hmissing Hdate. cbn.
  destruct (fs w !! pbf_dated); cbn;
    destruct (fs w !! md5_dated); cbn;
    rewrite ?bool_decide_eq_false_2 by done; cbn; eauto.
  by destruct Hmissing.
Qed.

(** No download is decided only on a complete dated pair. *)
Lemma pbf_download_needed_false_inv (w' : world) :
  pbf_download_needed ext pbf_dated md5_dated pgosm_date w = (Ok false, w') ->
  is_Some (fs w !! pbf_dated) /\ is_Some (fs w !! md5_dated).
Proof.
  intros H.
  destruct (fs w !! pbf_dated) as [cp |] eqn:Hp;
    destruct (fs w !! md5_dated) as [cm |] eqn:Hm; [eauto | ..].
  all: destruct (decide (pgosm_date = ext_today ext)) as [Ht | Ht];
    [rewrite pbf_download_needed_today in H by (rewrite ?Hp, ?Hm; auto)
    | destruct pbf_download_needed_historical as [msg Hraise];
      [rewrite ?Hp, ?Hm; auto | done | rewrite Hraise in H]];
    discriminate.
Qed.

End DownloadDecision.

(** X1. [pbf_download_needed] only looks: it never changes the world.  A
    complete dated pair means no download, on any date.  An incomplete pair
    means a download on the run date and [FileNotFoundError] on any other
    date. *)
Theorem pbf_download_needed_decision (ext : externals)
    (pbf_dated md5_dated pgosm_date : string) (w : world) :
  (forall r w', pbf_download_needed ext pbf_dated md5_dated pgosm_date w = (r, w') ->
     w' = w)
  /\ (is_Some (fs w !! pbf_dated) -> is_Some (fs w !! md5_dated) ->
      pbf_download_needed ext pbf_dated md5_dated pgosm_date w = (Ok false, w))
  /\ (fs w !! pbf_dated = None \/ fs w !! md5_dated = None ->
      pgosm_date = ext_today ext ->
      pbf_download_needed ext pbf_dated md5_dated pgosm_date w = (Ok true, w))
  /\ (fs w !! pbf_dated = None \/ fs w !! md5_dated = None ->
      pgosm_date <> ext_today ext ->
      exists msg,
        pbf_download_needed ext pbf_dated md5_dated pgosm_date w
        = (Raise (FileNotFoundError msg), w)).
Proof.
  split; [| split; [| split]].
  - intros r w'. apply pbf_download_needed_frame.
  - apply pbf_download_needed_hit.
  - apply pbf_download_needed_today.
  - apply pbf_download_needed_historical.
Qed.

Lemma pbf_download_needed_decision_witness :
  let ext := sample_externals "2021-01-13" true (fun _ => true) in
  let pbf_dated := "/app/output/dc-2021-01-13.osm.pbf" in
  let old_dated := "/app/output/dc-2020-12-01.osm.pbf" in
  let w := sample_world [(pbf_dated, "pbf"); (old_dated, "pbf");
                         (old_dated +:+ ".md5", "md5")] in
  pbf_download_needed ext old_dated (old_dated +:+ ".md5") "2020-12-01" w
    = (Ok false, w)
  /\ pbf_download_needed ext pbf_dated (pbf_dated +:+ ".md5") "2021-01-13" w
    = (Ok true, w)
  /\ exists msg,
      pbf_download_needed ext pbf_dated (pbf_dated +:+ ".md5") "2020-12-24" w
      = (Raise (FileNotFoundError msg), w).
Proof.
  intros ext pbf_dated old_dated w. split; [| split].
  - apply (pbf_download_needed_decision ext old_dated (old_dated +:+ ".md5")
             "2020-12-01" w); vm_compute; eauto.
  - apply (pbf_download_needed_decision ext pbf_dated (pbf_dated +:+ ".md5")
             "2021-01-13" w); [right; vm_compute |]; reflexivity.
  - apply (pbf_download_needed_decision ext pbf_dated (pbf_dated +:+ ".md5")
             "2020-12-24" w); [right; vm_compute; reflexivity |].
    vm_compute. discriminate.
Defined.

(** ** Archive and restore, composed *)

Lemma set_fs_same (w : world) : set_fs (fs w) w = w.
Proof. by destruct w. Qed.

Lemma archive_data_noop (pbf_file md5_file pbf_dated md5_dated : string)
    (w : world) :
  is_Some (fs w !! pbf_dated) -> is_Some (fs w !! md5_dated) ->
  archive_data pbf_file md5_file pbf_dated md5_dated w = (Ok tt, w).
Proof.
  intros [cp Hp] [cm Hm]. unfold archive_data, bind.
  rewrite (os_path_exists_some _ _ _ Hp). cbn [ret].
  by rewrite (os_path_exists_some _ _ _ Hm).
Qed.

(** After an archive that completed, both dated files exist. *)
Lemma archive_data_ok_dated (pbf_file md5_file pbf_dated md5_dated : string)
    (w w' : world) :
  archive_data pbf_file md5_file pbf_dated md5_dated w = (Ok tt, w') ->
  is_Some (fs w' !! pbf_dated) /\ is_Some (fs w' !! md5_dated).
Proof.
  intros H. unfold archive_data, bind, os_path_exists in H.
  cbv beta iota in H.
  assert (Hmd5 : forall w1,
             is_Some (fs w1 !! pbf_dated) ->
             (if bool_decide (is_Some (fs w1 !! md5_dated)) then ret tt
              else shutil_copy2 md5_file md5_dated) w1 = (Ok tt, w') ->
             is_Some (fs w' !! pbf_dated) /\ is_Some (fs w' !! md5_dated)).
  { intros w1 Hp1 H2.
    destruct (decide (is_Some (fs w1 !! md5_dated))) as [Hm | Hm].
    - rewrite bool_decide_eq_true_2 in H2 by done. by inversion H2; subst.
    - rewrite bool_decide_eq_false_2 in H2 by done.
      apply shutil_copy2_inv in H2 as (c & _ & _ & ->). cbn.
      rewrite lookup_insert_eq. split; [| eauto].
      rewrite lookup_insert_ne; [done |]. by intros <-. }
  destruct (decide (is_Some (fs w !! pbf_dated))) as [Hp | Hp].
  - rewrite bool_decide_eq_true_2 in H by done. cbn [ret] in H.
    by apply (Hmd5 w).
  - rewrite bool_decide_eq_false_2 in H by done.
    destruct (shutil_copy2 pbf_file pbf_dated w) as [[[] | e] w1] eqn:Hc;
      [| discriminate].
    apply (Hmd5 w1); [| exact H].
    apply shutil_copy2_inv in Hc as (c & _ & _ & ->). cbn.
    rewrite lookup_insert_eq. eauto.
Qed.

(** X2. Archiving is idempotent: once [archive_data] has completed, running
    it again with the same paths changes nothing and succeeds. *)
Theorem archive_data_idempotent (pbf_file md5_file pbf_dated md5_dated : string)
    (w w' : world) :
  archive_data pbf_file md5_file pbf_dated md5_dated w = (Ok tt, w') ->
  archive_data pbf_file md5_file pbf_dated md5_dated w' = (Ok tt, w').
Proof.
  intros H. apply archive_data_ok_dated in H as [Hp Hm].
  by apply archive_data_noop.
Qed.

Lemma archive_data_idempotent_witness :
  let pbf := "/app/output/dc-latest.osm.pbf" in
  let dated := "/app/output/dc-2021-01-13.osm.pbf" in
  let w := sample_world [(pbf, "pbf"); (pbf +:+ ".md5", "md5")] in
  let w' := (archive_data pbf (pbf +:+ ".md5") dated (dated +:+ ".md5") w).2 in
  archive_data pbf (pbf +:+ ".md5") dated (dated +:+ ".md5") w' = (Ok tt, w').
Proof.
  intros pbf dated w w'.
  apply (archive_data_idempotent pbf (pbf +:+ ".md5") dated (dated +:+ ".md5") w).
  vm_compute. reflexivity.
Defined.

Lemma archive_data_fresh (pbf_file md5_file pbf_dated md5_dated cp cm : string)
    (w : world) :
  fs w !! pbf_file = Some cp -> fs w !! md5_file = Some cm ->
  fs w !! pbf_dated = None -> fs w !! md5_dated = None ->
  pbf_dated <> md5_dated ->
  archive_data pbf_file md5_file pbf_dated md5_dated w
  = (Ok tt, set_fs (<[md5_dated := cm]> (<[pbf_dated := cp]> (fs w))) w).
Proof.
  intros Hp Hm Hpd Hmd Hne. unfold archive_data, bind.
  rewrite (os_path_exists_none _ _ Hpd).
  rewrite (shutil_copy2_ok _ _ _ _ Hp) by congruence.
  rewrite os_path_exists_none by (cbn; by rewrite lookup_insert_ne).
  rewrite (shutil_copy2_ok _ _ cm); cbn; [done | | congruence].
  rewrite lookup_insert_ne; [done | congruence].
Qed.

(** X3. Archive, then restore: once a fresh pair has been archived, that
    is once [archive_data] has completed where no dated file existed,
    [unarchive_data] succeeds and leaves the world exactly as the archive
    left it, the logical pair being already what the dated pair holds. *)
Theorem archive_then_unarchive (pbf_file md5_file pbf_dated md5_dated cp cm : string)
    (w w1 : world) :
  fs w !! pbf_file = Some cp -> fs w !! md5_file = Some cm ->
  fs w !! pbf_dated = None -> fs w !! md5_dated = None ->
  pbf_dated <> md5_dated ->
  archive_data pbf_file md5_file pbf_dated md5_dated w = (Ok tt, w1) ->
  unarchive_data pbf_file md5_file pbf_dated md5_dated w1 = (Ok tt, w1).
Proof.
  intros Hp Hm Hpd Hmd Hne Harch.
  rewrite (archive_data_fresh _ _ _ _ _ _ _ Hp Hm Hpd Hmd Hne) in Harch.
  injection Harch as <-.
  set (w1 := set_fs (<[md5_dated := cm]> (<[pbf_dated := cp]> (fs w))) w).
  assert (H1 : fs w1 !! pbf_dated = Some cp).
  { cbn. rewrite lookup_insert_ne, lookup_insert_eq; done. }
  assert (H2 : fs w1 !! md5_dated = Some cm) by apply lookup_insert_eq.
  assert (H3 : fs w1 !! pbf_file = Some cp).
  { cbn. rewrite !lookup_insert_ne; [done | congruence..]. }
  assert (H4 : fs w1 !! md5_file = Some cm).
  { cbn. rewrite !lookup_insert_ne; [done | congruence..]. }
  unfold unarchive_data, bind.
  rewrite (shutil_copy2_ok _ _ _ _ H1) by congruence.
  rewrite (insert_id _ _ _ H3), set_fs_same.
  rewrite (shutil_copy2_ok _ _ _ _ H2) by congruence.
  by rewrite (insert_id _ _ _ H4), set_fs_same.
Qed.

Lemma archive_then_unarchive_witness :
  let pbf := "/app/output/dc-latest.osm.pbf" in
  let dated := "/app/output/dc-2021-01-13.osm.pbf" in
  let w := sample_world [(pbf, "pbf"); (pbf +:+ ".md5", "md5")] in
  let w1 := (archive_data pbf (pbf +:+ ".md5") dated (dated +:+ ".md5") w).2 in
  archive_data pbf (pbf +:+ ".md5") dated (dated +:+ ".md5") w = (Ok tt, w1)
  /\ unarchive_data pbf (pbf +:+ ".md5") dated (dated +:+ ".md5") w1
     = (Ok tt, w1).
Proof.
  intros pbf dated w w1.
  split; [vm_compute; reflexivity |].
  apply (archive_then_unarchive pbf (pbf +:+ ".md5") dated (dated +:+ ".md5")
           "pbf" "md5" w); try (vm_compute; reflexivity).
  vm_compute. discriminate.
Defined.



(** ** Acquisition as a whole *)



(** X6. A failed download stops the acquisition at once.  On the run date,
    with the dated pair incomplete, a payload download that exits non-zero
    makes [prepare_data] raise [CalledProcessError]: the checksum is not
    fetched, nothing is archived or verified, and the files are as [wget]
    left them. *)
Theorem prepare_data_download_failure (ext : externals) (region : string)
    (subregion : option string) (pgosm_date : string) (p : paths) (w : world) :
  let pbf_file := logical_pbf region subregion p in
  let pbf_dated := dated_pbf region subregion pgosm_date p in
  let url := get_pbf_url region subregion in
  pgosm_date = ext_today ext ->
  fs w !! pbf_dated = None \/ fs w !! (pbf_dated +:+ ".md5") = None ->
  (ext_wget ext url pbf_file (fs w)).1 = false ->
  exists w',
    prepare_data ext region subregion pgosm_date p w
    = (Raise (CalledProcessError ["/usr/bin/wget"; url; "-O"; pbf_file; "--quiet"]),
       w')
    /\ fs w' = (ext_wget ext url pbf_file (fs w)).2
    /\ trace w' = EvWget url pbf_file false :: trace w.
Proof.
  intros pbf_file pbf_dated url Htoday Hmissing Hfail.
  unfold prepare_data. fold (logical_pbf region subregion p). fold pbf_file.
  change (Py.replace "latest" pgosm_date pbf_file) with pbf_dated.
  unfold bind at 1.
  assert (Hneeded : pbf_download_needed ext pbf_dated (pbf_dated +:+ ".md5")
                      pgosm_date w = (Ok true, w)).
  { unfold pbf_download_needed, bind, os_path_exists, get_today, ret. cbn.
    destruct (fs w !! pbf_dated); cbn;
      destruct (fs w !! (pbf_dated +:+ ".md5")); cbn;
      rewrite ?bool_decide_eq_true_2 by done; try done.
    by destruct Hmissing. }
  rewrite Hneeded. unfold bind, download_data, bind, run_wget. fold url.
  destruct (ext_wget ext url pbf_file (fs w)) as [ok files]. cbn in Hfail.
  subst ok. cbn. eauto.
Qed.

Lemma prepare_data_download_failure_witness :
  let ext :=
    {| ext_today := "2021-01-13";
       ext_wget := fun _ _ files => (false, files);
       ext_md5sum := fun _ _ _ => true;
       ext_pg_isready := fun _ _ => true;
       ext_recommendation := fun _ pbf _ _ => Ok pbf;
       ext_osm2pgsql := fun _ _ => true;
       ext_db := fun _ => true;
       ext_connection_string := "" |} in
  exists cmd w',
    prepare_data ext "north-america/us" (Some "district-of-columbia")
      "2021-01-13" (get_paths "/app") (sample_world [])
    = (Raise (CalledProcessError cmd), w')
    /\ length (trace w') = 1.
Proof.
  intros ext.
  destruct (prepare_data_download_failure ext "north-america/us"
              (Some "district-of-columbia") "2021-01-13" (get_paths "/app")
              (sample_world [])) as (w' & Hrun & _ & Htrace).
  - reflexivity.
  - left. vm_compute. reflexivity.
  - reflexivity.
  - eexists _, w'. split; [exact Hrun |]. by rewrite Htrace.
Defined.

(** X7. With a subregion, the local file names come from the subregion
    alone.  A pair cached for one region is therefore a cache hit for any
    other region with a subregion of the same name: [prepare_data] does the
    same, and downloads nothing, whatever the region is. *)
Theorem prepare_data_cache_ignores_region (ext : externals)
    (region region' sub pgosm_date : string) (p : paths) (w : world) :
  let pbf_dated := dated_pbf region (Some sub) pgosm_date p in
  is_Some (fs w !! pbf_dated) -> is_Some (fs w !! (pbf_dated +:+ ".md5")) ->
  prepare_data ext region (Some sub) pgosm_date p w
  = prepare_data ext region' (Some sub) pgosm_date p w
  /\ count_events is_download
       (trace (prepare_data ext region' (Some sub) pgosm_date p w).2)
     = count_events is_download (trace w).
Proof.
  intros pbf_dated [cp Hpd] [cm Hmd].
  assert (Hrun : forall r,
             prepare_data ext r (Some sub) pgosm_date p w
             = bind (unarchive_data (logical_pbf region (Some sub) p)
                       (logical_pbf region (Some sub) p +:+ ".md5") pbf_dated
                       (pbf_dated +:+ ".md5"))
                 (fun _ => bind (verify_checksum ext
                                   (logical_pbf region (Some sub) p +:+ ".md5") p)
                             (fun _ => ret (logical_pbf region (Some sub) p))) w).
  { intros r. unfold prepare_data. cbn [get_region_filename].
    fold (get_region_filename region (Some sub)).
    fold (logical_pbf region (Some sub) p).
    fold (dated_pbf region (Some sub) pgosm_date p). fold pbf_dated.
    unfold bind at 1.
    assert (Hneeded : pbf_download_needed ext pbf_dated (pbf_dated +:+ ".md5")
                        pgosm_date w = (Ok false, w)).
    { unfold pbf_download_needed, bind.
      rewrite (os_path_exists_some _ _ _ Hpd). cbn [ret].
      by rewrite (os_path_exists_some _ _ _ Hmd). }
    by rewrite Hneeded. }
  split; [by rewrite !Hrun |].
  rewrite Hrun.
  assert (Hemits : emits (fun e => negb (is_download e))
            (bind (unarchive_data (logical_pbf region (Some sub) p)
                     (logical_pbf region (Some sub) p +:+ ".md5") pbf_dated
                     (pbf_dated +:+ ".md5"))
               (fun _ => bind (verify_checksum ext
                                 (logical_pbf region (Some sub) p +:+ ".md5") p)
                           (fun _ => ret (logical_pbf region (Some sub) p))))).
  { apply emits_bind; [apply emits_unarchive_data | intros _].
    apply emits_bind; [by apply emits_verify_checksum | intros _].
    apply emits_ret. }
  edestruct Hemits as (new & Htr & Hall); [apply surjective_pairing |].
  pose proof (count_events_none is_download new Hall) as Hzero.
  rewrite Htr. unfold count_events in *.
  by rewrite filter_app, length_app, Hzero.
Qed.

Lemma prepare_data_cache_ignores_region_witness :
  let ext := sample_externals "2021-01-13" true (fun _ => true) in
  let dated := "/app/output/georgia-2021-01-13.osm.pbf" in
  let w := sample_world [(dated, "pbf"); (dated +:+ ".md5", "md5")] in
  prepare_data ext "europe" (Some "georgia") "2021-01-13" (get_paths "/app") w
  = prepare_data ext "north-america/us" (Some "georgia") "2021-01-13"
      (get_paths "/app") w
  /\ count_events is_download
       (trace (prepare_data ext "north-america/us" (Some "georgia")
                 "2021-01-13" (get_paths "/app") w).2) = 0.
Proof.
  intros ext dated w.
  apply (prepare_data_cache_ignores_region ext "europe" "north-america/us"
           "georgia" "2021-01-13" (get_paths "/app") w); vm_compute; eauto.
Defined.

(** ** The poller, in full *)

Lemma polls_frame (ext : externals) (conn_str : option string) (n : nat)
    (w : world) :
  fs (polls ext conn_str n w) = fs w
  /\ environ (polls ext conn_str n w) = environ w.
Proof.
  revert w. induction n as [| n IH]; intros w; [done |].
  cbn [polls]. by destruct (IH (polled ext conn_str w)) as [-> ->].
Qed.

Lemma count_ready_mono (ext : externals) (conn_str : option string)
    (c m n : nat) :
  m <= n -> count_ready ext conn_str c m <= count_ready ext conn_str c n.
Proof.
  intros Hmn. replace n with (m + (n - m)) by lia.
  rewrite count_ready_add. lia.
Qed.

(** The loop, from any of its states: it makes some number [m] of
    iterations within what the bound leaves, and either ends normally on the
    check that brings [found] to [required_checks], or uses all the
    iterations left without getting there and exits. *)
Lemma wait_loop_run (ext : externals) (conn_str : option string)
    (n found i : nat) (w : world) :
  i + n = max_loops + 1 -> found <= required_checks ->
  exists m,
    m <= n
    /\ (wait_loop ext conn_str found i w).2 = polls ext conn_str m w
    /\ ((wait_loop ext conn_str found i w).1 = Ok tt
        /\ found + count_ready ext conn_str (pg_calls w) m = required_checks
        \/ (wait_loop ext conn_str found i w).1 = Raise soft_timeout
           /\ m = n
           /\ found + count_ready ext conn_str (pg_calls w) n < required_checks).
Proof.
  revert found i w. induction n as [| n IH]; intros found i w Hi Hfound.
  - exists 0. split; [done |].
    destruct (decide (found < required_checks)) as [Hlt | Hge].
    + rewrite wait_loop_soft_exit by lia. split; [done |]. right.
      split; [done |]. cbn. lia.
    + rewrite wait_loop_done by lia. split; [done |]. left.
      split; [done |]. cbn. lia.
  - destruct (decide (found < required_checks)) as [Hlt | Hge].
    + rewrite wait_loop_step by lia.
      set (ready := ext_pg_isready ext conn_str (pg_calls w)).
      destruct (IH (if ready then found + 1 else found) (i + 1)
                  (polled ext conn_str w)) as (m & Hm & Hworld & Hout);
        [lia | destruct ready; lia |].
      exists (S m). split; [lia |]. split; [exact Hworld |].
      cbn [polled pg_calls count_ready] in *. fold ready.
      destruct Hout as [[Hok Hcount] | (Hexit & -> & Hcount)];
        [left | right]; (split; [done |]); destruct ready; lia.
    + exists 0. rewrite wait_loop_done by lia. split; [lia |].
      split; [done |]. left. split; [done |]. cbn. lia.
Qed.

(** X8. The poller always stops within [max_loops + 1 = 31] iterations.
    Whatever the checks answer, it makes as many checks as sleeps, at most
    31 of each, every sleep lasting five seconds, and it leaves the files
    and the environment alone. *)
Theorem wait_for_postgres_bounded (ext : externals) (conn_str : option string)
    (w : world) :
  let run := wait_for_postgres ext conn_str w in
  exists m new,
    m <= max_loops + 1
    /\ trace run.2 = (new ++ trace w)%list
    /\ length (check_results new) = m
    /\ sleep_seconds new = replicate m 5
    /\ pg_calls run.2 = pg_calls w + m
    /\ fs run.2 = fs w /\ environ run.2 = environ w.
Proof.
  intros run. unfold run, wait_for_postgres.
  destruct (wait_loop_run ext conn_str (max_loops + 1) 0 0 w)
    as (m & Hm & Hworld & _); [done | unfold required_checks; lia |].
  destruct (polls_trace ext conn_str m w) as (new & Htr & Hchk & Hsl).
  destruct (polls_frame ext conn_str m w) as [Hfs Henv].
  exists m, new. rewrite Hworld, polls_pg_calls. done.
Qed.

(** X9. What decides the poller is the number of passed checks among the
    first 31, wherever they are: two or more and it returns normally, having
    stopped at the second pass; fewer and it exits with the message of the
    first bound, having made all 31 checks. *)
Theorem wait_for_postgres_outcome (ext : externals) (conn_str : option string)
    (w : world) :
  let run := wait_for_postgres ext conn_str w in
  let passes := count_ready ext conn_str (pg_calls w) in
  (run.1 = Ok tt <-> required_checks <= passes (max_loops + 1))
  /\ (run.1 = Raise soft_timeout <-> passes (max_loops + 1) < required_checks)
  /\ (run.1 = Ok tt ->
      exists m, m <= max_loops + 1 /\ run.2 = polls ext conn_str m w
                /\ passes m = required_checks)
  /\ (run.1 = Raise soft_timeout -> run.2 = polls ext conn_str (max_loops + 1) w).
Proof.
  intros run passes. unfold run, wait_for_postgres.
  destruct (wait_loop_run ext conn_str (max_loops + 1) 0 0 w)
    as (m & Hm & Hworld & Hout); [done | unfold required_checks; lia |].
  fold passes in Hout. cbn [Nat.add] in Hout.
  pose proof (count_ready_mono ext conn_str (pg_calls w) m (max_loops + 1) Hm)
    as Hmono. fold passes in Hmono.
  destruct Hout as [[Hok Hcount] | (Hexit & -> & Hcount)].
  - rewrite Hok. split; [| split; [| split]].
    + split; [lia | done].
    + split; [discriminate | lia].
    + intros _. by exists m.
    + discriminate.
  - rewrite Hexit. split; [| split; [| split]].
    + split; [discriminate | lia].
    + split; [lia | done].
    + discriminate.
    + done.
Qed.

Lemma wait_for_postgres_outcome_witness :
  let ext := sample_externals "2021-01-13" true
               (fun n => (n =? 2)%nat || (n =? 9)%nat) in
  (wait_for_postgres ext None (sample_world [])).1 = Ok tt.
Proof.
  intros ext.
  apply (proj1 (wait_for_postgres_outcome ext None (sample_world []))).
  vm_compute. lia.
Defined.

Example wait_for_postgres_single_pass :
  let ext := sample_externals "2021-01-13" true (fun n => (n =? 7)%nat) in
  let run := wait_for_postgres ext None (sample_world []) in
  run.1 = Raise soft_timeout /\ length (check_results (trace run.2)) = 31.
Proof. vm_compute. done. Qed.

(** ** Stages of the pipeline *)

Lemma emits_bind_ret {A B} (good : event -> bool) (a : A) (k : A -> M B) :
  emits good (k a) -> emits good (bind (ret a) k).
Proof. intros Hk w r w' Hrun. by apply (Hk w r w'). Qed.

Lemma emits_wait_for_postgres_any (ext : externals) (good : event -> bool)
    (conn_str : option string) :
  (forall secs, good (EvSleep secs)) -> (forall r, good (EvPgIsReady r)) ->
  emits good (wait_for_postgres ext conn_str).
Proof.
  intros Hsleep Hcheck. unfold wait_for_postgres.
  by apply (emits_wait_loop ext good conn_str (max_loops + 1)); [..| lia].
Qed.

(** Every step of the pipeline, taken apart down to the primitives. *)
Ltac emits_all :=
  unfold prepare_data, pbf_download_needed, download_data, archive_data,
    unarchive_data, remove_latest_files, run_post_processing,
    get_osm2pgsql_command, set_env_vars;
  repeat first
    [ apply emits_bind; [| intros ?]
    | apply emits_ret | apply emits_raise | apply emits_lift
    | apply emits_os_path_exists | apply emits_get_today
    | apply emits_os_environ_set | apply emits_shutil_copy2
    | apply emits_os_remove
    | apply emits_check_layerset_places
    | apply emits_run_wget; intros; done
    | apply emits_verify_checksum; intros; done
    | apply emits_db_call; intros; done
    | apply emits_run_osm2pgsql; intros; done
    | apply emits_wait_for_postgres_any; intros; done
    | match goal with
      | |- emits _ (if ?b then _ else _) => destruct b
      | |- emits _ (match ?x with _ => _ end) => destruct x
      end ].

(** The whole pipeline adds events only. *)
Lemma emits_run_pgosm_flex (ext : externals) (good : event -> bool)
    (layerset : string) (layerset_path : option string) (ram : nat)
    (region subregion : option string) (srid pgosm_date : string)
    (language : option string) (schema_name : string)
    (skip_nested data_only skip_dump debug : bool) (basepath : string)
    (input_file conn_str : option string) :
  (forall e, good e) ->
  emits good
    (run_pgosm_flex ext layerset layerset_path ram region subregion srid
       pgosm_date language schema_name skip_nested data_only skip_dump debug
       basepath input_file conn_str).
Proof.
  intros Hgood. unfold run_pgosm_flex. emits_all.
Qed.

(** *** Local-file runs *)

Lemma keeps_fs_bind {A B} (m : M A) (k : A -> M B) :
  keeps_fs m -> (forall a, keeps_fs (k a)) -> keeps_fs (bind m k).
Proof.
  intros Hm Hk w r w' Hrun. unfold bind in Hrun.
  destruct (m w) as [[a | e] w1] eqn:Hmw.
  - rewrite (Hk a _ _ _ Hrun). by apply (Hm _ _ _ Hmw).
  - inversion Hrun; subst. by apply (Hm _ _ _ Hmw).
Qed.

Lemma keeps_fs_pure {A} (m : M A) :
  (forall w, fs (m w).2 = fs w) -> keeps_fs m.
Proof. intros Hm w r w' Hrun. specialize (Hm w). by rewrite Hrun in Hm. Qed.

Lemma keeps_fs_db_call (ext : externals) (op : db_op) : keeps_fs (db_call ext op).
Proof.
  apply keeps_fs_pure. intros w. unfold db_call. by destruct (ext_db ext op).
Qed.

Lemma keeps_fs_run_osm2pgsql (ext : externals) (cmd : string) (p : paths) :
  keeps_fs (run_osm2pgsql ext cmd p).
Proof.
  apply keeps_fs_pure. intros w. unfold run_osm2pgsql.
  by destruct (ext_osm2pgsql ext (Py.split cmd) (flex_path p)).
Qed.

Lemma keeps_fs_check_layerset_places (layerset_path : option string)
    (layerset : string) (p : paths) :
  keeps_fs (check_layerset_places layerset_path layerset p).
Proof.
  apply keeps_fs_pure. intros w. unfold check_layerset_places.
  repeat case_match; done.
Qed.

Lemma keeps_fs_wait_for_postgres (ext : externals) (conn_str : option string) :
  keeps_fs (wait_for_postgres ext conn_str).
Proof.
  apply keeps_fs_pure. intros w. unfold wait_for_postgres.
  destruct (wait_loop_run ext conn_str (max_loops + 1) 0 0 w)
    as (m & _ & -> & _); [done | unfold required_checks; lia |].
  apply polls_frame.
Qed.

Ltac keeps_fs_all :=
  unfold run_post_processing, set_env_vars;
  repeat first
    [ apply keeps_fs_bind; [| intros ?]
    | apply keeps_fs_db_call | apply keeps_fs_run_osm2pgsql
    | apply keeps_fs_check_layerset_places | apply keeps_fs_wait_for_postgres
    | by apply keeps_fs_pure
    | match goal with
      | |- keeps_fs (if ?b then _ else _) => destruct b
      | |- keeps_fs (match ?x with _ => _ end) => destruct x
      end ].

(** X10. A run on a local input file bypasses the acquisition entirely:
    whatever the other options are and however the run ends, it never runs
    [wget] and never runs [md5sum]. *)
Theorem run_pgosm_flex_local_file (ext : externals)
    (layerset : string) (layerset_path : option string) (ram : nat)
    (region subregion : option string) (srid pgosm_date : string)
    (language : option string) (schema_name : string)
    (skip_nested data_only skip_dump debug : bool) (basepath : string)
    (input_file : string) (conn_str : option string) (w : world) :
  let run :=
    run_pgosm_flex ext layerset layerset_path ram region subregion srid
      pgosm_date language schema_name skip_nested data_only skip_dump debug
      basepath (Some input_file) conn_str w in
  exists new,
    trace run.2 = (new ++ trace w)%list
    /\ Forall (fun e => negb (is_download e) && negb (is_checksum e)) new.
Proof.
  intros run.
  assert (Hemits : emits (fun e => negb (is_download e) && negb (is_checksum e))
            (run_pgosm_flex ext layerset layerset_path ram region subregion
               srid pgosm_date language schema_name skip_nested data_only
               skip_dump debug basepath (Some input_file) conn_str)).
  { unfold run_pgosm_flex. apply emits_bind_ret. emits_all. }
  apply (Hemits w run.1 run.2), surjective_pairing.
Qed.

(** *** Stage barriers *)

Lemma not_bad_not_exists (bad : event -> bool) (new : list event) :
  Forall (fun e => negb (bad e)) new -> ~ Exists (fun e => bad e) new.
Proof.
  intros Hall Hex. apply Exists_exists in Hex as (e & Hin & Hbad).
  rewrite Forall_forall in Hall. specialize (Hall e Hin).
  by destruct (bad e).
Qed.

Lemma gated_bind_pre {A B} (gate bad : event -> bool) (m : M A) (k : A -> M B) :
  emits (fun e => negb (bad e)) m -> (forall a, gated gate bad (k a)) ->
  gated gate bad (bind m k).
Proof.
  intros Hm Hk w r w' Hrun. unfold bind in Hrun.
  destruct (m w) as [[a | e] w1] eqn:Hmw;
    destruct (Hm _ _ _ Hmw) as (new1 & Htr1 & Hall1);
    apply not_bad_not_exists in Hall1.
  - destruct (Hk a _ _ _ Hrun) as (new2 & Htr2 & Hbad2 & Hok2).
    exists (new2 ++ new1)%list. split; [by rewrite Htr2, Htr1, app_assoc |].
    split.
    + intros [Hex | Hex]%Exists_app; [| done].
      apply Exists_app. left. auto.
    + intros Hr. apply Exists_app. left. auto.
  - inversion Hrun; subst. exists new1. split; [done |]. split; [done |].
    intros Hr. by destruct Hr.
Qed.

Lemma gated_bind_ret {A B} (gate bad : event -> bool) (a : A) (k : A -> M B) :
  gated gate bad (k a) -> gated gate bad (bind (ret a) k).
Proof. intros Hk w r w' Hrun. by apply (Hk w r w'). Qed.

Lemma gated_bind_open {A B} (gate bad : event -> bool) (m : M A) (k : A -> M B) :
  opens_gate gate bad m -> (forall a, emits (fun _ => true) (k a)) ->
  gated gate bad (bind m k).
Proof.
  intros Hm Hk w r w' Hrun. unfold bind in Hrun.
  destruct (m w) as [[a | e0] w1] eqn:Hmw;
    destruct (Hm _ _ _ Hmw) as (e & Htr1 & Hbad & Hgate).
  - destruct (Hk a _ _ _ Hrun) as (new2 & Htr2 & _).
    exists (new2 ++ [e])%list.
    split; [by rewrite Htr2, Htr1, <- app_assoc |].
    assert (Exists (fun e => gate e) (new2 ++ [e])).
    { apply Exists_app. right. apply Exists_cons_hd. apply Hgate.
      cbn. tauto. }
    split; auto.
  - inversion Hrun; subst. exists [e]. split; [done |]. split.
    + intros Hex. apply Exists_cons in Hex as [Hex | Hex]; [| inversion Hex].
      by destruct (bad e).
    + intros Hr. by destruct Hr.
Qed.

Lemma gated_bind_post {A B} (gate bad : event -> bool) (m : M A) (k : A -> M B) :
  gated gate bad m -> (forall a, emits (fun _ => true) (k a)) ->
  gated gate bad (bind m k).
Proof.
  intros Hm Hk w r w' Hrun. unfold bind in Hrun.
  destruct (m w) as [[a | e0] w1] eqn:Hmw;
    destruct (Hm _ _ _ Hmw) as (new1 & Htr1 & Hbad1 & Hok1).
  - destruct (Hk a _ _ _ Hrun) as (new2 & Htr2 & _).
    exists (new2 ++ new1)%list. split; [by rewrite Htr2, Htr1, app_assoc |].
    assert (Exists (fun e => gate e) (new2 ++ new1)).
    { apply Exists_app. right. apply Hok1. cbn. tauto. }
    split; auto.
  - inversion Hrun; subst. by exists new1.
Qed.

Lemma opens_gate_db_call (ext : externals) (gate bad : event -> bool) (op : db_op) :
  (forall ok, negb (bad (EvDb op ok))) -> gate (EvDb op true) ->
  opens_gate gate bad (db_call ext op).
Proof.
  intros Hbad Hgate w r w' Hrun. unfold db_call in Hrun.
  exists (EvDb op (ext_db ext op)).
  destruct (ext_db ext op); inversion Hrun; subst; cbn; split_and!;
    done || tauto.
Qed.

Lemma opens_gate_run_osm2pgsql (ext : externals) (gate bad : event -> bool)
    (cmd : string) (p : paths) :
  (forall argv cwd ok, negb (bad (EvOsm2pgsql argv cwd ok))) ->
  (forall argv cwd, gate (EvOsm2pgsql argv cwd true)) ->
  opens_gate gate bad (run_osm2pgsql ext cmd p).
Proof.
  intros Hbad Hgate w r w' Hrun. unfold run_osm2pgsql in Hrun.
  exists (EvOsm2pgsql (Py.split cmd) (flex_path p)
            (ext_osm2pgsql ext (Py.split cmd) (flex_path p))).
  destruct (ext_osm2pgsql ext (Py.split cmd) (flex_path p));
    inversion Hrun; subst; cbn; split_and!; done || tauto.
Qed.

(** X11. The stages are barriers.  In every run the import command is only
    invoked after [db.prepare_pgosm_db] has returned, the post-import
    scripts only after an import that exited with 0, and [pg_dump] only
    after post-import scripts that returned; a run that returns normally has
    gone through all three. *)
Theorem run_pgosm_flex_stage_barriers (ext : externals)
    (layerset : string) (layerset_path : option string) (ram : nat)
    (region subregion : option string) (srid pgosm_date : string)
    (language : option string) (schema_name : string)
    (skip_nested data_only skip_dump debug : bool) (basepath : string)
    (input_file conn_str : option string) (w : world) :
  let run :=
    run_pgosm_flex ext layerset layerset_path ram region subregion srid
      pgosm_date language schema_name skip_nested data_only skip_dump debug
      basepath input_file conn_str w in
  exists new,
    trace run.2 = (new ++ trace w)%list
    /\ (Exists (fun e => is_import e) new -> Exists (fun e => is_prepared e) new)
    /\ (Exists (fun e => is_after_import e) new ->
        Exists (fun e => is_imported e) new)
    /\ (Exists (fun e => is_dump e) new ->
        Exists (fun e => is_post_processed e) new)
    /\ (~ is_raise run.1 ->
        Exists (fun e => is_prepared e) new
        /\ Exists (fun e => is_imported e) new
        /\ Exists (fun e => is_post_processed e) new).
Proof.
  intros run.
  assert (H1 : gated is_prepared is_import
            (run_pgosm_flex ext layerset layerset_path ram region subregion
               srid pgosm_date language schema_name skip_nested data_only
               skip_dump debug basepath input_file conn_str)).
  { unfold run_pgosm_flex.
    apply gated_bind_pre; [destruct input_file, region; emits_all |].
    intros source.
    apply gated_bind_pre; [emits_all | intros _].
    apply gated_bind_pre; [destruct source; emits_all | intros command].
    apply gated_bind_pre; [emits_all | intros _].
    apply gated_bind_open; [by apply opens_gate_db_call | intros _].
    emits_all. }
  assert (H2 : gated is_imported is_after_import
            (run_pgosm_flex ext layerset layerset_path ram region subregion
               srid pgosm_date language schema_name skip_nested data_only
               skip_dump debug basepath input_file conn_str)).
  { unfold run_pgosm_flex.
    apply gated_bind_pre; [destruct input_file, region; emits_all |].
    intros source.
    apply gated_bind_pre; [emits_all | intros _].
    apply gated_bind_pre; [destruct source; emits_all | intros command].
    apply gated_bind_pre; [emits_all | intros _].
    apply gated_bind_pre; [emits_all | intros _].
    apply gated_bind_open; [by apply opens_gate_run_osm2pgsql | intros _].
    emits_all. }
  assert (H3 : gated is_post_processed is_dump
            (run_pgosm_flex ext layerset layerset_path ram region subregion
               srid pgosm_date language schema_name skip_nested data_only
               skip_dump debug basepath input_file conn_str)).
  { unfold run_pgosm_flex.
    apply gated_bind_pre; [destruct input_file, region; emits_all |].
    intros source.
    apply gated_bind_pre; [emits_all | intros _].
    apply gated_bind_pre; [destruct source; emits_all | intros command].
    apply gated_bind_pre; [emits_all | intros _].
    apply gated_bind_pre; [emits_all | intros _].
    apply gated_bind_pre; [emits_all | intros _].
    apply gated_bind_pre; [destruct skip_nested; emits_all | intros skip].
    apply gated_bind_post; [| intros _; emits_all].
    unfold run_post_processing.
    apply gated_bind_open; [by apply opens_gate_db_call | intros _].
    emits_all. }
  destruct (H1 w run.1 run.2 (surjective_pairing _))
    as (new & Htr & Himport & Hok1).
  destruct (H2 w run.1 run.2 (surjective_pairing _))
    as (new2 & Htr2 & Hafter & Hok2).
  destruct (H3 w run.1 run.2 (surjective_pairing _))
    as (new3 & Htr3 & Hdump & Hok3).
  assert (new2 = new) as -> by (apply (app_inv_tail (trace w)); congruence).
  assert (new3 = new) as -> by (apply (app_inv_tail (trace w)); congruence).
  exists new. auto 10.
Qed.

Lemma run_pgosm_flex_stage_barriers_witness :
  let ext := sample_externals "2021-01-13" true (fun _ => true) in
  let run :=
    run_pgosm_flex ext "default" None 4 (Some "north-america/us")
      (Some "district-of-columbia") "3857" "2021-01-13" None "osm"
      false false false false "/app" None None (sample_world []) in
  Exists (fun e => is_prepared e) (trace run.2)
  /\ Exists (fun e => is_imported e) (trace run.2)
  /\ Exists (fun e => is_post_processed e) (trace run.2).
Proof.
  intros ext run.
  destruct (run_pgosm_flex_stage_barriers ext "default" None 4
              (Some "north-america/us") (Some "district-of-columbia") "3857"
              "2021-01-13" None "osm" false false false false "/app" None None
              (sample_world [])) as (new & Htr & _ & _ & _ & Hok).
  fold ext in Htr, Hok. fold run in Htr, Hok. rewrite app_nil_r in Htr.
  rewrite Htr. apply Hok. vm_compute. tauto.
Defined.

(** *** Runs without a subregion *)

Lemma never_completes_bind_pre {A B} (good : event -> bool) (m : M A)
    (k : A -> M B) :
  emits good m -> (forall a, never_completes good (k a)) ->
  never_completes good (bind m k).
Proof.
  intros Hm Hk w r w' Hrun. unfold bind in Hrun.
  destruct (m w) as [[a | e] w1] eqn:Hmw;
    destruct (Hm _ _ _ Hmw) as (new1 & Htr1 & Hall1).
  - destruct (Hk a _ _ _ Hrun) as (Hr & new2 & Htr2 & Hall2).
    split; [done |]. exists (new2 ++ new1)%list.
    split; [by rewrite Htr2, Htr1, app_assoc | by apply Forall_app].
  - inversion Hrun; subst. split; [done |]. by exists new1.
Qed.

Lemma never_completes_bind_ret {A B} (good : event -> bool) (a : A)
    (k : A -> M B) :
  never_completes good (k a) -> never_completes good (bind (ret a) k).
Proof. intros Hk w r w' Hrun. by apply (Hk w r w'). Qed.

Lemma never_completes_bind_left {A B} (good : event -> bool) (m : M A)
    (k : A -> M B) :
  never_completes good m -> never_completes good (bind m k).
Proof.
  intros Hm w r w' Hrun. unfold bind in Hrun.
  destruct (m w) as [[a | e] w1] eqn:Hmw;
    destruct (Hm _ _ _ Hmw) as (Hr & new1 & Htr1 & Hall1); [done |].
  inversion Hrun; subst. split; [done |]. by exists new1.
Qed.

Lemma never_completes_lift_raise {A} (good : event -> bool) (e : exn) :
  never_completes good (lift (A := A) (Raise e)).
Proof.
  intros w r w' Hrun. inversion Hrun; subst. split; [done |].
  exists []. split; [done | constructor].
Qed.

(** X12. A region-only run never reaches the dump.  With a region, no
    input file, and the subregion absent or given as ["none"], every run
    ends by raising, whatever the outside does, and neither renames the
    schema nor calls [pg_dump]: at the latest, building the export file name
    raises after the import and the clean-up. *)
Theorem run_pgosm_flex_region_only (ext : externals)
    (layerset : string) (layerset_path : option string) (ram : nat)
    (region : string) (subregion : option string) (srid pgosm_date : string)
    (language : option string) (schema_name : string)
    (skip_nested data_only skip_dump debug : bool) (basepath : string)
    (conn_str : option string) (w : world) :
  let run :=
    run_pgosm_flex ext layerset layerset_path ram (Some region) subregion srid
      pgosm_date language schema_name skip_nested data_only skip_dump debug
      basepath None conn_str w in
  subregion = None \/ subregion = Some "none" ->
  is_raise run.1
  /\ exists new,
      trace run.2 = (new ++ trace w)%list
      /\ Forall (fun e => negb (is_dump e) && negb (is_rename e)) new.
Proof.
  intros run Hsub.
  assert (Hnone : (if bool_decide (subregion = Some "none") then None
                   else subregion) = None).
  { destruct Hsub as [-> | ->]; [by rewrite bool_decide_eq_false_2 | done]. }
  assert (Hnever : never_completes
            (fun e => negb (is_dump e) && negb (is_rename e))
            (run_pgosm_flex ext layerset layerset_path ram (Some region)
               subregion srid pgosm_date language schema_name skip_nested
               data_only skip_dump debug basepath None conn_str)).
  { unfold run_pgosm_flex. apply never_completes_bind_ret.
    cbv beta iota zeta. rewrite Hnone.
    apply never_completes_bind_pre; [emits_all | intros _].
    apply never_completes_bind_pre; [emits_all | intros command].
    apply never_completes_bind_pre; [emits_all | intros _].
    apply never_completes_bind_pre; [emits_all | intros _].
    apply never_completes_bind_pre; [emits_all | intros _].
    apply never_completes_bind_pre; [destruct skip_nested; emits_all | intros skip].
    apply never_completes_bind_pre; [emits_all | intros _].
    apply never_completes_bind_left.
    apply never_completes_bind_pre; [emits_all | intros _].
    apply never_completes_lift_raise. }
  apply (Hnever w run.1 run.2), surjective_pairing.
Qed.

Lemma run_pgosm_flex_region_only_witness :
  let ext := sample_externals "2021-01-13" true (fun _ => true) in
  let run :=
    run_pgosm_flex ext "default" None 4 (Some "antarctica") (Some "none")
      "3857" "2021-01-13" None "osm" false false false false "/app" None None
      (sample_world []) in
  run.1 = Raise AttributeError
  /\ Exists (fun e => is_imported e) (trace run.2)
  /\ Forall (fun e => negb (is_dump e) && negb (is_rename e)) (trace run.2).
Proof.
  intros ext run.
  destruct (run_pgosm_flex_region_only ext "default" None 4 "antarctica"
              (Some "none") "3857" "2021-01-13" None "osm" false false false
              false "/app" None (sample_world [])) as (_ & new & Htr & Hall).
  - by right.
  - fold ext in Htr. fold run in Htr. rewrite app_nil_r in Htr.
    rewrite Htr. split; [vm_compute; reflexivity |]. split; [| exact Hall].
    rewrite <- Htr. vm_compute. apply Exists_cons_tl, Exists_cons_hd. exact I.
Defined.

(** *** Flags *)

(** X13. The two skip flags are final.  With [skip_nested] set, no run
    computes nested polygons, whatever the layerset file says; with
    [skip_dump] set, no run calls [pg_dump]. *)
Theorem run_pgosm_flex_skip_flags (ext : externals)
    (layerset : string) (layerset_path : option string) (ram : nat)
    (region subregion : option string) (srid pgosm_date : string)
    (language : option string) (schema_name : string)
    (skip_nested data_only skip_dump debug : bool) (basepath : string)
    (input_file conn_str : option string) (w : world) :
  let run :=
    run_pgosm_flex ext layerset layerset_path ram region subregion srid
      pgosm_date language schema_name skip_nested data_only skip_dump debug
      basepath input_file conn_str w in
  exists new,
    trace run.2 = (new ++ trace w)%list
    /\ (skip_nested = true -> Forall (fun e => negb (is_nested e)) new)
    /\ (skip_dump = true -> Forall (fun e => negb (is_dump e)) new).
Proof.
  intros run.
  destruct (emits_run_pgosm_flex ext (fun _ => true) layerset layerset_path ram
              region subregion srid pgosm_date language schema_name skip_nested
              data_only skip_dump debug basepath input_file conn_str
              ltac:(done) w run.1 run.2 (surjective_pairing _))
    as (new & Htr & _).
  exists new. split; [exact Htr |]. split.
  - intros ->.
    assert (Hemits : emits (fun e => negb (is_nested e))
              (run_pgosm_flex ext layerset layerset_path ram region subregion
                 srid pgosm_date language schema_name true data_only
                 skip_dump debug basepath input_file conn_str)).
    { unfold run_pgosm_flex.
      apply emits_bind; [destruct input_file, region; emits_all |].
      intros source.
      apply emits_bind; [emits_all | intros _].
      apply emits_bind; [destruct source; emits_all | intros command].
      apply emits_bind; [emits_all | intros _].
      apply emits_bind; [emits_all | intros _].
      apply emits_bind; [emits_all | intros _].
      apply emits_bind_ret. unfold run_post_processing. cbv beta iota.
      emits_all. }
    destruct (Hemits w run.1 run.2 (surjective_pairing _)) as (new' & Htr' & Hall).
    assert (new' = new) as -> by (apply (app_inv_tail (trace w)); congruence).
    exact Hall.
  - intros ->.
    assert (Hemits : emits (fun e => negb (is_dump e))
              (run_pgosm_flex ext layerset layerset_path ram region subregion
                 srid pgosm_date language schema_name skip_nested data_only
                 true debug basepath input_file conn_str)).
    { unfold run_pgosm_flex. cbv beta iota.
      apply emits_bind; [destruct input_file, region; emits_all |].
      intros source.
      apply emits_bind; [emits_all | intros _].
      apply emits_bind; [destruct source; emits_all | intros command].
      apply emits_bind; [emits_all | intros _].
      apply emits_bind; [emits_all | intros _].
      apply emits_bind; [emits_all | intros _].
      apply emits_bind; [destruct skip_nested; emits_all | intros skip].
      apply emits_bind; [emits_all | intros _].
      apply emits_bind; [destruct source; emits_all | intros export_filename].
      apply emits_bind; [emits_all | intros _].
      apply emits_ret. }
    destruct (Hemits w run.1 run.2 (surjective_pairing _)) as (new' & Htr' & Hall).
    assert (new' = new) as -> by (apply (app_inv_tail (trace w)); congruence).
    exact Hall.
Qed.

Lemma run_pgosm_flex_skip_flags_witness :
  let ext := sample_externals "2021-01-13" true (fun _ => true) in
  let run :=
    run_pgosm_flex ext "default" None 4 (Some "north-america/us")
      (Some "district-of-columbia") "3857" "2021-01-13" None "osm"
      true false true false "/app" None None
      (sample_world [("/app/flex-config/layerset/default.ini", "[layerset]
place=true
")]) in
  run.1 = Ok tt
  /\ Forall (fun e => negb (is_nested e)) (trace run.2)
  /\ Forall (fun e => negb (is_dump e)) (trace run.2).
Proof.
  intros ext run.
  destruct (run_pgosm_flex_skip_flags ext "default" None 4
              (Some "north-america/us") (Some "district-of-columbia") "3857"
              "2021-01-13" None "osm" true false true false "/app" None None
              (sample_world [("/app/flex-config/layerset/default.ini",
                              "[layerset]
place=true
")])) as (new & Htr & Hnested & Hdump).
  fold ext in Htr. fold run in Htr. rewrite app_nil_r in Htr.
  split; [vm_compute; reflexivity |]. rewrite Htr. auto.
Defined.

(** ** Environment *)

(** X14. [set_env_vars] always returns and touches neither files nor
    trace.  It sets the region (slashes kept), the date, the layerset and
    the connection string (the given one, else the built-in one); it sets
    the SRID, the language and the layerset path only when they differ from
    the default or are given, leaving an earlier value in place otherwise;
    and it leaves every other variable alone. *)
Theorem set_env_vars_effect (ext : externals) (region subregion : option string)
    (srid : string) (language : option string) (pgosm_date layerset : string)
    (layerset_path conn_str : option string) (w : world) :
  exists w',
    set_env_vars ext region subregion srid language pgosm_date layerset
      layerset_path conn_str w = (Ok tt, w')
    /\ fs w' = fs w /\ trace w' = trace w /\ pg_calls w' = pg_calls w
    /\ environ w' !! "PGOSM_REGION"
       = Some (match subregion with
               | None => Py.str region
               | Some sub => Py.str region +:+ "-" +:+ sub
               end)
    /\ environ w' !! "PGOSM_DATE" = Some pgosm_date
    /\ environ w' !! "PGOSM_LAYERSET" = Some layerset
    /\ environ w' !! "PGOSM_CONN"
       = Some (default (ext_connection_string ext) conn_str)
    /\ environ w' !! "PGOSM_SRID"
       = (if bool_decide (srid = DEFAULT_SRID) then environ w !! "PGOSM_SRID"
          else Some srid)
    /\ environ w' !! "PGOSM_LANGUAGE"
       = (match language with
          | Some lang => Some lang
          | None => environ w !! "PGOSM_LANGUAGE"
          end)
    /\ environ w' !! "PGOSM_LAYERSET_PATH"
       = (match layerset_path with
          | Some dir => Some dir
          | None => environ w !! "PGOSM_LAYERSET_PATH"
          end)
    /\ (forall k, k ∉ pgosm_variables -> environ w' !! k = environ w !! k).
Proof.
  unfold set_env_vars, bind, os_environ_set, modify, ret, set_environ.
  destruct (bool_decide (srid = DEFAULT_SRID)), language, layerset_path,
    conn_str; cbn; (eexists; split; [reflexivity |]); cbn; split_and!;
    try done; try (by simplify_map_eq).
  all: intros k Hk; unfold pgosm_variables in Hk;
    repeat (rewrite lookup_insert_ne; [| intros <-; apply Hk; set_solver]);
    done.
Qed.

(** ** File names *)

Lemma has_char_app (c : ascii) (s t : string) :
  Py.has_char c (s +:+ t) = Py.has_char c s || Py.has_char c t.
Proof.
  induction s as [| a s IH]; [done |].
  change (String a s +:+ t) with (String a (s +:+ t)).
  cbn [Py.has_char]. by rewrite IH, orb_assoc.
Qed.

(** X15. The export file name holds no slash when layerset and date hold
    none, whatever slashes region and subregion contain: the dump is
    written directly into the output directory. *)
Theorem get_export_filename_flat (region sub layerset pgosm_date : string) :
  Py.has_char "/" layerset = false -> Py.has_char "/" pgosm_date = false ->
  exists name,
    get_export_filename region (Some sub) layerset pgosm_date = Ok name
    /\ Py.has_char "/" name = false.
Proof.
  intros Hl Hd. eexists. split; [apply get_export_filename_some |].
  by rewrite !has_char_app, !map_chars_slash_free, Hl, Hd.
Qed.

Lemma get_export_filename_flat_witness :
  exists name,
    get_export_filename "north-america/us" (Some "new-york/manhattan")
      "default" "2021-01-13" = Ok name
    /\ Py.has_char "/" name = false.
Proof.
  apply (get_export_filename_flat "north-america/us" "new-york/manhattan"
           "default" "2021-01-13"); reflexivity.
Defined.

(** X16. The log file name is cleaned in the region only: it holds a slash
    exactly when the subregion does, in which case the log path points below
    the output directory. *)
Theorem get_log_path_slashes (region : string) (subregion : option string)
    (p : paths) :
  exists name,
    get_log_path region subregion p = Py.path_join (out_path p) name
    /\ Py.has_char "/" name
       = match subregion with
         | Some sub => Py.has_char "/" sub
         | None => false
         end.
Proof.
  exists (get_log_filename region subregion). split; [done |].
  unfold get_log_filename. rewrite replace_slash_map_chars.
  destruct subregion as [sub |];
    rewrite !has_char_app, map_chars_slash_free; cbn; [| done].
  by rewrite orb_false_r.
Qed.

(** ** Dated names *)

(** A string without a hyphen cannot start in [t] and end beyond a hyphen
    that follows [t]. *)
Lemma prefix_before_hyphen (old t u : string) :
  Py.has_char "-" old = false ->
  String.prefix old (t +:+ String "-" u) = String.prefix old t.
Proof.
  revert t. induction old as [| a old IH]; intros t Hold.
  - by destruct t.
  - cbn [Py.has_char] in Hold. apply orb_false_elim in Hold as [Ha Hold].
    destruct t as [| c t].
    + change ("" +:+ String "-" u) with (String "-" u).
      cbn -[ascii_dec]. destruct (ascii_dec a "-") as [-> | Hne]; [| done].
      discriminate.
    + change (String c t +:+ String "-" u) with (String c (t +:+ String "-" u)).
      cbn -[ascii_dec]. destruct (ascii_dec a c); [by apply IH | done].
Qed.

Lemma replace_aux_latest_suffix (d a : string) :
  contains "latest" a = false ->
  Py.replace_aux "latest" d 0 (a +:+ "-latest.osm.pbf")
  = a +:+ "-" +:+ d +:+ ".osm.pbf".
Proof.
  induction a as [| c a IH]; intros Hno; [reflexivity |].
  cbn [contains] in Hno. apply orb_false_elim in Hno as [Hhere Hno].
  change (String c a +:+ "-latest.osm.pbf")
    with (String c (a +:+ "-latest.osm.pbf")).
  cbn [Py.replace_aux].
  change (String c (a +:+ "-latest.osm.pbf"))
    with (String c a +:+ String "-" "latest.osm.pbf").
  rewrite prefix_before_hyphen, Hhere by reflexivity.
  change (String c a +:+ "-" +:+ d +:+ ".osm.pbf")
    with (String c (a +:+ "-" +:+ d +:+ ".osm.pbf")).
  f_equal. by apply IH.
Qed.

Lemma prefix_empty (s : string) : String.prefix "" s = true.
Proof. by destruct s. Qed.

Lemma path_join_app (a b c : string) :
  Py.startswith c "/" = false ->
  Py.path_join a (b +:+ c) = Py.path_join a b +:+ c.
Proof.
  intros Hc. unfold Py.path_join.
  assert (Hstart : Py.startswith (b +:+ c) "/" = Py.startswith b "/").
  { destruct b as [| x b]; [change ("" +:+ c) with c; by rewrite Hc |].
    change (String x b +:+ c) with (String x (b +:+ c)).
    unfold Py.startswith. cbn -[ascii_dec].
    destruct (ascii_dec "/" x); [| done]. by rewrite !prefix_empty. }
  rewrite Hstart. destruct (Py.startswith b "/"); [done |].
  destruct (negb (Py.truthy a) || Py.endswith a "/");
    by rewrite <- !string_app_assoc.
Qed.

(** X17. The dated name.  When ["latest"] does not occur in the output
    directory joined with the name of the extract (the subregion if there is
    one, else the region), the dated payload file is that path followed by
    ["-{date}.osm.pbf"]: the date takes the place of the marker and nothing
    else changes. *)
Theorem dated_pbf_shape (region : string) (subregion : option string)
    (pgosm_date : string) (p : paths) :
  let stem := Py.path_join (out_path p) (default region subregion) in
  contains "latest" stem = false ->
  logical_pbf region subregion p = stem +:+ "-latest.osm.pbf"
  /\ dated_pbf region subregion pgosm_date p
     = stem +:+ "-" +:+ pgosm_date +:+ ".osm.pbf".
Proof.
  intros stem Hno.
  assert (Hlogical : logical_pbf region subregion p = stem +:+ "-latest.osm.pbf").
  { unfold logical_pbf, stem.
    replace (get_region_filename region subregion)
      with (default region subregion +:+ "-latest.osm.pbf")
      by (by destruct subregion).
    by apply path_join_app. }
  split; [exact Hlogical |].
  unfold dated_pbf, Py.replace. rewrite Hlogical.
  by apply replace_aux_latest_suffix.
Qed.

Lemma dated_pbf_shape_witness :
  dated_pbf "north-america/us" (Some "district-of-columbia") "2021-01-13"
    (get_paths "/app")
  = "/app/output/district-of-columbia" +:+ "-" +:+ "2021-01-13" +:+ ".osm.pbf".
Proof.
  apply (dated_pbf_shape "north-america/us" (Some "district-of-columbia")
           "2021-01-13" (get_paths "/app")).
  vm_compute. reflexivity.
Defined.

(** Where the marker does occur elsewhere, it is replaced there too. *)
Example dated_pbf_latest_in_base_path :
  dated_pbf "europe" (Some "malta") "2021-01-13" (get_paths "/data/latest")
  = "/data/2021-01-13/output/malta-2021-01-13.osm.pbf".
Proof. reflexivity. Qed.

(** ** Download, then archive *)

Lemma emits_nothing {A} (m : M A) (w w' : world) (r : result A) :
  emits (fun _ => false) m -> m w = (r, w') -> trace w' = trace w.
Proof.
  intros Hm Hrun. destruct (Hm _ _ _ Hrun) as (new & -> & Hall).
  destruct new as [| e new]; [done |]. by inversion Hall.
Qed.

(** With both logical files in place, archiving completes. *)
Lemma archive_data_completes (pbf_file md5_file pbf_dated md5_dated cp cm : string)
    (w : world) :
  fs w !! pbf_file = Some cp -> fs w !! md5_file = Some cm ->
  pbf_dated <> md5_dated ->
  exists w', archive_data pbf_file md5_file pbf_dated md5_dated w = (Ok tt, w').
Proof.
  intros Hp Hm Hne.
  destruct (fs w !! md5_dated) as [cmd |] eqn:Hmd.
  - destruct (fs w !! pbf_dated) as [cpd |] eqn:Hpd.
    + exists w. apply archive_data_noop; eauto.
    + unfold archive_data, bind.
      rewrite (os_path_exists_none _ _ Hpd).
      rewrite (shutil_copy2_ok _ _ _ _ Hp) by congruence.
      rewrite (os_path_exists_some md5_dated cmd)
        by (cbn; by rewrite lookup_insert_ne). eauto.
  - destruct (archive_data_creates_md5 pbf_file md5_file pbf_dated md5_dated cm w)
      as (w' & H & _); eauto.
Qed.

(** X18. Download on the run date.  Take an output directory and an
    extract name in which ["latest"] does not occur, so that the dated files
    are siblings of the logical files.  When the dated pair is incomplete
    and both downloads exit with 0, leaving the logical pair in place and
    the dated files as they were, [prepare_data] fetches the payload, then
    the checksum, archives, and verifies, in this order.  Each dated file
    that existed keeps its content and each one that was missing takes the
    downloaded content; so a dated payload left by an earlier partial run is
    kept and paired with the checksum downloaded now. *)
Theorem prepare_data_download_archive (ext : externals) (region : string)
    (subregion : option string) (pgosm_date : string) (p : paths)
    (files1 files2 : gmap string string) (cp cm : string) (w : world) :
  let pbf_file := logical_pbf region subregion p in
  let md5_file := pbf_file +:+ ".md5" in
  let pbf_dated := dated_pbf region subregion pgosm_date p in
  let md5_dated := pbf_dated +:+ ".md5" in
  let url := get_pbf_url region subregion in
  contains "latest" (Py.path_join (out_path p) (default region subregion))
  = false ->
  pgosm_date = ext_today ext ->
  fs w !! pbf_dated = None \/ fs w !! md5_dated = None ->
  ext_wget ext url pbf_file (fs w) = (true, files1) ->
  ext_wget ext (url +:+ ".md5") md5_file files1 = (true, files2) ->
  files2 !! pbf_file = Some cp -> files2 !! md5_file = Some cm ->
  files2 !! pbf_dated = fs w !! pbf_dated ->
  files2 !! md5_dated = fs w !! md5_dated ->
  exists (w' : world) (ok : bool),
    prepare_data ext region subregion pgosm_date p w
    = (if ok then Ok pbf_file
       else Raise (CalledProcessError ["md5sum"; "-c"; md5_file]), w')
    /\ ok = ext_md5sum ext md5_file (out_path p) (fs w')
    /\ trace w'
       = EvMd5sum md5_file (out_path p) ok
         :: EvWget (url +:+ ".md5") md5_file true
         :: EvWget url pbf_file true :: trace w
    /\ fs w' !! pbf_dated = Some (default cp (fs w !! pbf_dated))
    /\ fs w' !! md5_dated = Some (default cm (fs w !! md5_dated)).
Proof.
  intros pbf_file md5_file pbf_dated md5_dated url _ Htoday Hmissing Hw1 Hw2
    Hp Hm Hpd Hmd.
  unfold prepare_data. fold (logical_pbf region subregion p). fold pbf_file.
  change (Py.replace "latest" pgosm_date pbf_file) with pbf_dated.
  fold md5_file. fold md5_dated. unfold bind at 1.
  assert (Hneeded : pbf_download_needed ext pbf_dated md5_dated pgosm_date w
                    = (Ok true, w)).
  { unfold pbf_download_needed, bind, os_path_exists, get_today, ret. cbn.
    destruct (fs w !! pbf_dated); cbn;
      destruct (fs w !! md5_dated); cbn;
      rewrite ?bool_decide_eq_true_2 by done; try done.
    by destruct Hmissing. }
  rewrite Hneeded. unfold bind at 1. unfold bind at 1.
  assert (Hdl : download_data ext region subregion pbf_file md5_file w
                = (Ok tt,
                   emit (EvWget (url +:+ ".md5") md5_file true)
                     (set_fs files2 (emit (EvWget url pbf_file true)
                                       (set_fs files1 w))))).
  { unfold download_data, bind, run_wget. fold url. rewrite Hw1. cbn.
    by rewrite Hw2. }
  rewrite Hdl.
  set (w2 := emit (EvWget (url +:+ ".md5") md5_file true)
               (set_fs files2 (emit (EvWget url pbf_file true) (set_fs files1 w)))).
  assert (Hne : pbf_dated <> md5_dated) by apply string_app_md5_ne.
  destruct (archive_data_completes pbf_file md5_file pbf_dated md5_dated cp cm w2)
    as (w3 & Harch); [done.. |].
  rewrite Harch.
  assert (Htrace : trace w3 = trace w2).
  { apply (emits_nothing _ _ _ _ (emits_archive_data _ _ _ _ _) Harch). }
  assert (Hpbf : fs w3 !! pbf_dated = Some (default cp (fs w !! pbf_dated))).
  { destruct (fs w !! pbf_dated) as [old |] eqn:Hold; cbn.
    - by apply (archive_data_keeps_existing _ _ _ _ _ _ _ Harch).
    - by apply (archive_data_creates_pbf _ _ _ _ cp w2 _ _ Hpd Hp Harch). }
  assert (Hmd5 : fs w3 !! md5_dated = Some (default cm (fs w !! md5_dated))).
  { destruct (fs w !! md5_dated) as [old |] eqn:Hold; cbn.
    - by apply (archive_data_keeps_existing _ _ _ _ _ _ _ Harch).
    - destruct (archive_data_creates_md5 pbf_file md5_file pbf_dated md5_dated
                  cm w2) as (w3' & Harch' & Hcm); [done | done | done | |].
      + right. cbn. eauto.
      + rewrite Harch in Harch'. by inversion Harch'; subst. }
  unfold bind, verify_checksum, ret.
  exists (emit (EvMd5sum md5_file (out_path p)
                  (ext_md5sum ext md5_file (out_path p) (fs w3))) w3),
    (ext_md5sum ext md5_file (out_path p) (fs w3)).
  split; [by destruct (ext_md5sum ext md5_file (out_path p) (fs w3)) |].
  split; [done |]. split; [by cbn; rewrite Htrace |]. done.
Qed.

Lemma prepare_data_download_archive_witness :
  let ext := sample_externals "2021-01-13" true (fun _ => true) in
  let dated := "/app/output/district-of-columbia-2021-01-13.osm.pbf" in
  let w := sample_world [(dated, "payload of an earlier run")] in
  exists w',
    (prepare_data ext "north-america/us" (Some "district-of-columbia")
       "2021-01-13" (get_paths "/app") w).2 = w'
    /\ count_events is_download (trace w') = 2
    /\ fs w' !! dated = Some "payload of an earlier run"
    /\ is_Some (fs w' !! (dated +:+ ".md5")).
Proof.
  intros ext dated w.
  destruct (prepare_data_download_archive ext "north-america/us"
              (Some "district-of-columbia") "2021-01-13" (get_paths "/app")
              (sample_wget
                 "https://download.geofabrik.de/north-america/us/district-of-columbia-latest.osm.pbf"
                 "/app/output/district-of-columbia-latest.osm.pbf" (fs w)).2
              (sample_wget
                 "https://download.geofabrik.de/north-america/us/district-of-columbia-latest.osm.pbf.md5"
                 "/app/output/district-of-columbia-latest.osm.pbf.md5"
                 (sample_wget
                    "https://download.geofabrik.de/north-america/us/district-of-columbia-latest.osm.pbf"
                    "/app/output/district-of-columbia-latest.osm.pbf" (fs w)).2).2
              "downloaded from https://download.geofabrik.de/north-america/us/district-of-columbia-latest.osm.pbf"
              "downloaded from https://download.geofabrik.de/north-america/us/district-of-columbia-latest.osm.pbf.md5"
              w) as (w' & ok & Hrun & _ & Htrace & Hpbf & Hmd5);
    try (vm_compute; reflexivity).
  - right. vm_compute. reflexivity.
  - exists w'. split; [by rewrite Hrun |].
    split; [rewrite Htrace; vm_compute; reflexivity |].
    split; [exact Hpbf | eexists; exact Hmd5].
Defined.

(** ** The cache after a run *)

Lemma hoare_bind {A B} (P Q R : gmap string string -> Prop) (m : M A)
    (k : A -> M B) :
  hoare P m Q -> (forall a, hoare Q (k a) R) -> hoare P (bind m k) R.
Proof.
  intros Hm Hk w b w' HP Hrun. unfold bind in Hrun.
  destruct (m w) as [[a | e] w1] eqn:Hmw; [| discriminate].
  apply (Hk a w1 b w'); [| done]. by apply (Hm w a w1).
Qed.

Lemma hoare_bind_ret {A B} (P R : gmap string string -> Prop) (a : A)
    (k : A -> M B) :
  hoare P (k a) R -> hoare P (bind (ret a) k) R.
Proof. intros Hk w b w' HP Hrun. by apply (Hk w b w'). Qed.

Lemma hoare_keeps {A} (P : gmap string string -> Prop) (m : M A) :
  keeps_fs m -> hoare P m P.
Proof. intros Hm w a w' HP Hrun. by rewrite (Hm _ _ _ Hrun). Qed.

Lemma shutil_copy2_keeps_keys (src dst q : string) (w w' : world) :
  shutil_copy2 src dst w = (Ok tt, w') ->
  is_Some (fs w !! q) -> is_Some (fs w' !! q).
Proof.
  intros (c & _ & _ & ->)%shutil_copy2_inv Hq. cbn.
  destruct (decide (q = dst)) as [-> | Hne];
    [rewrite lookup_insert_eq; eauto | by rewrite lookup_insert_ne].
Qed.

Lemma keeps_fs_verify_checksum (ext : externals) (md5_file : string) (p : paths) :
  keeps_fs (verify_checksum ext md5_file p).
Proof.
  apply keeps_fs_pure. intros w. unfold verify_checksum.
  by destruct (ext_md5sum ext md5_file (out_path p) (fs w)).
Qed.

(** Whenever [prepare_data] returns, the dated pair exists: it was there,
    or it has just been archived. *)
Lemma prepare_data_caches (ext : externals) (region : string)
    (subregion : option string) (pgosm_date : string) (p : paths)
    (w w' : world) (a : string) :
  prepare_data ext region subregion pgosm_date p w = (Ok a, w') ->
  is_Some (fs w' !! dated_pbf region subregion pgosm_date p)
  /\ is_Some (fs w' !! (dated_pbf region subregion pgosm_date p +:+ ".md5")).
Proof.
  unfold prepare_data. fold (logical_pbf region subregion p).
  fold (dated_pbf region subregion pgosm_date p).
  set (pbf_file := logical_pbf region subregion p).
  set (pbf_dated := dated_pbf region subregion pgosm_date p).
  intros Hrun. unfold bind at 1 in Hrun.
  destruct (pbf_download_needed ext pbf_dated (pbf_dated +:+ ".md5") pgosm_date w)
    as [[needed | e] w0] eqn:Hneeded; [| discriminate].
  apply pbf_download_needed_frame in Hneeded as Hw0. subst w0.
  unfold bind at 1 in Hrun.
  destruct needed.
  - unfold bind at 1 in Hrun.
    destruct (download_data ext region subregion pbf_file (pbf_file +:+ ".md5") w)
      as [[[] | e] w1]; [| discriminate].
    destruct (archive_data pbf_file (pbf_file +:+ ".md5") pbf_dated
                (pbf_dated +:+ ".md5") w1) as [[[] | e] w2] eqn:Harch;
      [| discriminate].
    apply archive_data_ok_dated in Harch.
    unfold bind in Hrun.
    destruct (verify_checksum ext (pbf_file +:+ ".md5") p w2)
      as [[[] | e] w3] eqn:Hver; [| discriminate].
    inversion Hrun; subst. by rewrite (keeps_fs_verify_checksum _ _ _ _ _ _ Hver).
  - apply pbf_download_needed_false_inv in Hneeded as Hcached.
    unfold unarchive_data, bind in Hrun.
    destruct (shutil_copy2 pbf_dated pbf_file w) as [[[] | e] w1] eqn:Hc1;
      [| discriminate].
    destruct (shutil_copy2 (pbf_dated +:+ ".md5") (pbf_file +:+ ".md5") w1)
      as [[[] | e] w2] eqn:Hc2; [| discriminate].
    destruct (verify_checksum ext (pbf_file +:+ ".md5") p w2)
      as [[[] | e] w3] eqn:Hver; [| discriminate].
    inversion Hrun; subst. rewrite (keeps_fs_verify_checksum _ _ _ _ _ _ Hver).
    destruct Hcached as [H1 H2].
    split; eauto using shutil_copy2_keeps_keys.
Qed.

Lemma string_app_inj_r (s s' t : string) : s +:+ t = s' +:+ t -> s = s'.
Proof.
  revert s'. induction s as [| c s IH]; intros [| d s'] H; [done | ..].
  - apply (f_equal String.length) in H.
    rewrite !string_length_app in H. cbn in H. lia.
  - apply (f_equal String.length) in H.
    rewrite !string_length_app in H. cbn in H. lia.
  - change (String c (s +:+ t) = String d (s' +:+ t)) in H.
    injection H as -> H. by rewrite (IH s' H).
Qed.

(** Removing the logical pair leaves a dated pair in place when the dated
    names are not the logical ones. *)
Lemma hoare_remove_latest_files (region : string) (subregion : option string)
    (p : paths) (pbf_dated : string) :
  let pbf_file := logical_pbf region subregion p in
  pbf_dated <> pbf_file -> pbf_dated <> pbf_file +:+ ".md5" ->
  pbf_dated +:+ ".md5" <> pbf_file ->
  hoare (fun files => is_Some (files !! pbf_dated)
                      /\ is_Some (files !! (pbf_dated +:+ ".md5")))
    (remove_latest_files region subregion p)
    (fun files => files !! pbf_file = None
                  /\ files !! (pbf_file +:+ ".md5") = None
                  /\ is_Some (files !! pbf_dated)
                  /\ is_Some (files !! (pbf_dated +:+ ".md5"))).
Proof.
  intros pbf_file H1 H2 H3 w a w' [Hp Hm] Hrun.
  assert (H4 : pbf_dated +:+ ".md5" <> pbf_file +:+ ".md5")
    by (intros H; by apply string_app_inj_r in H).
  assert (Hne : pbf_file <> pbf_file +:+ ".md5") by apply string_app_md5_ne.
  unfold remove_latest_files, bind, os_remove in Hrun.
  fold (logical_pbf region subregion p) in Hrun. fold pbf_file in Hrun.
  destruct (fs w !! pbf_file) as [cp |]; [| discriminate]. cbn in Hrun.
  rewrite lookup_delete_ne in Hrun by done.
  destruct (fs w !! (pbf_file +:+ ".md5")) as [cm |]; [| discriminate].
  inversion Hrun; subst. cbn.
  rewrite lookup_delete_eq, lookup_delete_ne, lookup_delete_eq by done.
  by rewrite !lookup_delete_ne by done.
Qed.

(** X20. The cache after a run.  For a run on a region with a subregion,
    where ["latest"] occurs neither in the output path joined with the
    subregion nor as the date: if the run returns normally, the logical
    payload and checksum are gone and the dated pair is in place, whether it
    was downloaded in this run or found in the cache. *)
Theorem run_pgosm_flex_cache_lifecycle (ext : externals)
    (layerset : string) (layerset_path : option string) (ram : nat)
    (region sub srid pgosm_date : string)
    (language : option string) (schema_name : string)
    (skip_nested data_only skip_dump debug : bool) (basepath : string)
    (conn_str : option string) (w : world) :
  let p := get_paths basepath in
  let pbf_file := logical_pbf region (Some sub) p in
  let pbf_dated := dated_pbf region (Some sub) pgosm_date p in
  let run :=
    run_pgosm_flex ext layerset layerset_path ram (Some region) (Some sub) srid
      pgosm_date language schema_name skip_nested data_only skip_dump debug
      basepath None conn_str w in
  contains "latest" (Py.path_join (out_path p) sub) = false ->
  pgosm_date <> "latest" -> sub <> "none" ->
  run.1 = Ok tt ->
  fs run.2 !! pbf_file = None /\ fs run.2 !! (pbf_file +:+ ".md5") = None
  /\ is_Some (fs run.2 !! pbf_dated)
  /\ is_Some (fs run.2 !! (pbf_dated +:+ ".md5")).
Proof.
  intros p pbf_file pbf_dated run Hstem Hdate Hsub Hok.
  set (stem := Py.path_join (out_path p) sub) in *.
  assert (Hlogical : pbf_file = stem +:+ "-latest.osm.pbf").
  { unfold pbf_file, logical_pbf, stem. cbn [get_region_filename].
    by apply path_join_app. }
  assert (Hdated : pbf_dated = stem +:+ "-" +:+ pgosm_date +:+ ".osm.pbf").
  { unfold pbf_dated, dated_pbf, Py.replace. fold pbf_file. rewrite Hlogical.
    by apply replace_aux_latest_suffix. }
  assert (H1 : pbf_dated <> pbf_file).
  { rewrite Hdated, Hlogical. intros H.
    apply (inj (String.app stem)) in H.
    change ("-" +:+ pgosm_date +:+ ".osm.pbf" = "-" +:+ "latest" +:+ ".osm.pbf") in H.
    apply (inj (String.app "-")) in H. by apply string_app_inj_r in H. }
  assert (H2 : pbf_dated <> pbf_file +:+ ".md5").
  { intros H. apply (f_equal last_char) in H.
    rewrite Hdated, <- !string_app_assoc in H.
    rewrite !last_char_app in H by done. discriminate. }
  assert (H3 : pbf_dated +:+ ".md5" <> pbf_file)
    by (intros H; by apply (logical_pbf_not_dated_md5 region (Some sub)
                              pgosm_date p)).
  assert (Hhoare : hoare (fun _ => True)
            (run_pgosm_flex ext layerset layerset_path ram (Some region)
               (Some sub) srid pgosm_date language schema_name skip_nested
               data_only skip_dump debug basepath None conn_str)
            (fun files => files !! pbf_file = None
                          /\ files !! (pbf_file +:+ ".md5") = None
                          /\ is_Some (files !! pbf_dated)
                          /\ is_Some (files !! (pbf_dated +:+ ".md5")))).
  { unfold run_pgosm_flex. apply hoare_bind_ret. cbv beta iota zeta.
    rewrite bool_decide_eq_false_2 by congruence.
    set (Cached := fun files : gmap string string =>
                     is_Some (files !! pbf_dated)
                     /\ is_Some (files !! (pbf_dated +:+ ".md5"))).
    apply (hoare_bind _ (fun _ => True));
      [apply hoare_keeps; keeps_fs_all | intros _].
    apply (hoare_bind _ Cached).
    { apply (hoare_bind _ Cached).
      - intros w0 a w1 _ Hrun. by apply prepare_data_caches in Hrun.
      - intros _. apply hoare_keeps. by apply keeps_fs_pure. }
    intros command.
    apply (hoare_bind _ Cached); [apply hoare_keeps; keeps_fs_all | intros _].
    apply (hoare_bind _ Cached); [apply hoare_keeps; keeps_fs_all | intros _].
    apply (hoare_bind _ Cached); [apply hoare_keeps; keeps_fs_all | intros _].
    apply (hoare_bind _ Cached);
      [apply hoare_keeps; destruct skip_nested; keeps_fs_all | intros skip].
    apply (hoare_bind _ Cached); [apply hoare_keeps; keeps_fs_all | intros _].
    eapply hoare_bind.
    { eapply hoare_bind; [by apply hoare_remove_latest_files | intros _].
      apply hoare_keeps. by apply keeps_fs_pure. }
    intros export_filename. apply hoare_keeps. keeps_fs_all. }
  destruct run as [r w'] eqn:Hrun. cbn in Hok. subst r.
  by apply (Hhoare w tt w').
Qed.

Lemma run_pgosm_flex_cache_lifecycle_witness :
  let ext := sample_externals "2021-01-13" true (fun _ => true) in
  let run :=
    run_pgosm_flex ext "default" None 4 (Some "north-america/us")
      (Some "district-of-columbia") "3857" "2021-01-13" None "osm"
      false false false false "/app" None None (sample_world []) in
  fs run.2 !! "/app/output/district-of-columbia-latest.osm.pbf" = None
  /\ is_Some (fs run.2 !! "/app/output/district-of-columbia-2021-01-13.osm.pbf").
Proof.
  intros ext run.
  destruct (run_pgosm_flex_cache_lifecycle ext "default" None 4
              "north-america/us" "district-of-columbia" "3857" "2021-01-13"
              None "osm" false false false false "/app" None (sample_world []))
    as (Hgone & _ & Hcached & _).
  - vm_compute. reflexivity.
  - discriminate.
  - discriminate.
  - vm_compute. reflexivity.
  - split; [exact Hgone | exact Hcached].
Defined.

(** ** Readiness before database work *)

Lemma count_events_app (kind : event -> bool) (tr1 tr2 : list event) :
  count_events kind (tr1 ++ tr2) = count_events kind tr1 + count_events kind tr2.
Proof. unfold count_events. by rewrite filter_app, length_app. Qed.

Lemma polls_ready (ext : externals) (conn_str : option string) (m : nat)
    (w : world) :
  exists new,
    trace (polls ext conn_str m w) = (new ++ trace w)%list
    /\ count_events is_ready new = count_ready ext conn_str (pg_calls w) m
    /\ Forall (fun e => negb (is_db_work e)) new.
Proof.
  revert w. induction m as [| m IH]; intros w; cbn [polls count_ready].
  - exists []. split; [done |]. split; [done | constructor].
  - destruct (IH (polled ext conn_str w)) as (new & Htr & Hcount & Hall).
    exists (new ++ [EvPgIsReady (ext_pg_isready ext conn_str (pg_calls w));
                    EvSleep 5])%list.
    split; [rewrite Htr; cbn; by rewrite <- app_assoc |]. split.
    + rewrite count_events_app, Hcount. cbn [polled pg_calls].
      destruct (ext_pg_isready ext conn_str (pg_calls w));
        [change (count_events is_ready [EvPgIsReady true; EvSleep 5]) with 1
        | change (count_events is_ready [EvPgIsReady false; EvSleep 5]) with 0];
        lia.
    + apply Forall_app. split; [done |]. by repeat constructor.
Qed.

(** When the poller returns normally, exactly [required_checks] of its
    checks have passed. *)
Lemma wait_for_postgres_ready (ext : externals) (conn_str : option string)
    (w w' : world) (r : result unit) :
  wait_for_postgres ext conn_str w = (r, w') ->
  exists new,
    trace w' = (new ++ trace w)%list
    /\ Forall (fun e => negb (is_db_work e)) new
    /\ (~ is_raise r -> count_events is_ready new = required_checks).
Proof.
  intros Hrun. unfold wait_for_postgres in Hrun.
  destruct (wait_loop_run ext conn_str (max_loops + 1) 0 0 w)
    as (m & _ & Hworld & Hout); [done | unfold required_checks; lia |].
  rewrite Hrun in Hworld, Hout. cbn in Hworld, Hout. subst w'.
  destruct (polls_ready ext conn_str m w) as (new & Htr & Hcount & Hall).
  exists new. split; [done |]. split; [done |].
  intros Hr. destruct Hout as [[_ Hm] | [-> _]]; [by rewrite Hcount | by destruct Hr].
Qed.

Lemma readiness_bind_pre {A B} (m : M A) (k : A -> M B) :
  emits (fun e => negb (is_db_work e) && negb (is_ready e)) m ->
  (forall a, readiness_gated (k a)) -> readiness_gated (bind m k).
Proof.
  intros Hm Hk w r w' Hrun. unfold bind in Hrun.
  destruct (m w) as [[a | e] w1] eqn:Hmw;
    destruct (Hm _ _ _ Hmw) as (new1 & Htr1 & Hall1).
  all: assert (Hwork1 : ~ Exists (fun e => is_db_work e) new1)
    by (apply not_bad_not_exists; eapply Forall_impl; [exact Hall1 |];
        intros x; cbn beta; destruct (is_db_work x); cbn; tauto).
  all: assert (Hready1 : count_events is_ready new1 = 0)
    by (apply count_events_none; eapply Forall_impl; [exact Hall1 |];
        intros x; cbn beta; destruct (is_db_work x), (is_ready x); cbn; tauto).
  - destruct (Hk a _ _ _ Hrun) as (new2 & Htr2 & Hgate2).
    exists (new2 ++ new1)%list. split; [by rewrite Htr2, Htr1, app_assoc |].
    intros [Hex | Hex]%Exists_app; [| done].
    rewrite count_events_app, Hready1, (Hgate2 Hex). lia.
  - inversion Hrun; subst. exists new1. done.
Qed.

Lemma readiness_bind_wait {B} (ext : externals) (conn_str : option string)
    (k : unit -> M B) :
  (forall a, emits (fun e => negb (is_ready e)) (k a)) ->
  readiness_gated (bind (wait_for_postgres ext conn_str) k).
Proof.
  intros Hk w r w' Hrun. unfold bind in Hrun.
  destruct (wait_for_postgres ext conn_str w) as [[a | e] w1] eqn:Hwait;
    destruct (wait_for_postgres_ready _ _ _ _ _ Hwait)
      as (new1 & Htr1 & Hall1 & Hready1).
  - destruct (Hk a _ _ _ Hrun) as (new2 & Htr2 & Hall2).
    exists (new2 ++ new1)%list. split; [by rewrite Htr2, Htr1, app_assoc |].
    intros _. rewrite count_events_app, Hready1 by (cbn; tauto).
    by rewrite (count_events_none is_ready new2 Hall2).
  - inversion Hrun; subst. exists new1. split; [done |].
    intros Hex. by destruct (not_bad_not_exists is_db_work new1).
Qed.

(** X19. No database work before the database is ready.  In every run, if
    any call into [db] or the import command is among the events, then
    exactly two readiness checks of the run have passed; a run whose poller
    gives up touches neither. *)
Theorem run_pgosm_flex_readiness_gate (ext : externals)
    (layerset : string) (layerset_path : option string) (ram : nat)
    (region subregion : option string) (srid pgosm_date : string)
    (language : option string) (schema_name : string)
    (skip_nested data_only skip_dump debug : bool) (basepath : string)
    (input_file conn_str : option string) (w : world) :
  let run :=
    run_pgosm_flex ext layerset layerset_path ram region subregion srid
      pgosm_date language schema_name skip_nested data_only skip_dump debug
      basepath input_file conn_str w in
  exists new,
    trace run.2 = (new ++ trace w)%list
    /\ (Exists (fun e => is_db_work e) new ->
        count_events is_ready new = required_checks).
Proof.
  intros run.
  assert (Hgated : readiness_gated
            (run_pgosm_flex ext layerset layerset_path ram region subregion
               srid pgosm_date language schema_name skip_nested data_only
               skip_dump debug basepath input_file conn_str)).
  { unfold run_pgosm_flex.
    apply readiness_bind_pre; [destruct input_file, region; emits_all |].
    intros source.
    apply readiness_bind_pre; [emits_all | intros _].
    apply readiness_bind_pre; [destruct source; emits_all | intros command].
    apply readiness_bind_wait. intros _. emits_all. }
  apply (Hgated w run.1 run.2), surjective_pairing.
Qed.

Lemma run_pgosm_flex_readiness_gate_witness :
  let ext := sample_externals "2021-01-13" true
               (fun n => (n =? 2)%nat || (3 <? n)%nat) in
  let run :=
    run_pgosm_flex ext "default" None 4 (Some "north-america/us")
      (Some "district-of-columbia") "3857" "2021-01-13" None "osm"
      false false false false "/app" None None (sample_world []) in
  count_events is_ready (trace run.2) = 2.
Proof.
  intros ext run.
  destruct (run_pgosm_flex_readiness_gate ext "default" None 4
              (Some "north-america/us") (Some "district-of-columbia") "3857"
              "2021-01-13" None "osm" false false false false "/app" None None
              (sample_world [])) as (new & Htr & Hgate).
  fold ext in Htr. fold run in Htr. rewrite app_nil_r in Htr.
  rewrite Htr. apply Hgate. rewrite <- Htr. vm_compute.
  apply Exists_cons_hd. exact I.
Defined.

Example run_pgosm_flex_database_down :
  let ext := sample_externals "2021-01-13" true (fun _ => false) in
  let run :=
    run_pgosm_flex ext "default" None 4 (Some "north-america/us")
      (Some "district-of-columbia") "3857" "2021-01-13" None "osm"
      false false false false "/app" None None (sample_world []) in
  run.1 = Raise soft_timeout
  /\ count_events is_db_work (trace run.2) = 0
  /\ count_events is_download (trace run.2) = 2.
Proof. vm_compute. done. Qed.
